(** * Verification of the workbook seeding pipeline ([scripts/seed.py])

    The development embeds the script as Rocq functions:
    - [PyStr], [PyFloat]: the Python string and float operations the script
      relies on ([str.strip], [str.lower], [in], [float], [int], [round],
      [/], [repr]);
    - [cell], [n], [s], [i]: worksheet cell values and the three coercions;
    - [json]: Python values exchanged with the REST backend;
    - [M]: a state-and-exception monad over an abstract transport, with the
      trace of HTTP requests and console lines;
    - [send], [http]: one call of [requests], which serialises its payload
      first and raises, before anything goes out, when it holds a nan or
      an infinity;
    - [resolve_event], the row extractors and [main].

    Text is modelled as strings of Latin-1 code points ([string]); floats
    are IEEE binary64 ([PrimFloat.float]). *)

From Stdlib Require Import ZArith List String Ascii Bool Lia.
From Stdlib Require Import DecimalString.
From Stdlib Require Import Floats.PrimFloat Floats.SpecFloat Floats.FloatOps Floats.FloatAxioms.
Import ListNotations.
Open Scope string_scope.
Open Scope Z_scope.

(** ** Exceptions and fallible results *)

Inductive exn : Type :=
| ValueError | TypeError | OverflowError | ZeroDivisionError
| KeyError | IndexError | RequestException | InvalidJSONError
| SystemExit (code : Z).

Inductive result (A : Type) : Type :=
| Ok (a : A)
| Raise (e : exn).
Arguments Ok {A} a.
Arguments Raise {A} e.

Definition rbind {A B : Type} (r : result A) (k : A -> result B) : result B :=
  match r with
  | Ok a => k a
  | Raise e => Raise e
  end.

Notation "'let*' x ':=' e 'in' k" := (rbind e (fun x => k))
  (at level 10, x name, e at level 100, k at level 200).

(** [try: body except: handler] with a bare [except]. *)
Definition try_except {A : Type} (body handler : result A) : result A :=
  match body with
  | Ok a => Ok a
  | Raise _ => handler
  end.

(** ** Python string operations *)

Module PyStr.

Definition code (c : ascii) : Z := Z.of_N (N_of_ascii c).
Definition between (lo hi k : Z) : bool := (lo <=? k) && (k <=? hi).

(** [str.isspace] on Latin-1: TAB..CR, FS..US, space, NEL, NBSP. *)
Definition isspace (c : ascii) : bool :=
  let k := code c in
  between 9 13 k || between 28 32 k || (k =? 133) || (k =? 160).

Definition isdigit (c : ascii) : bool := between 48 57 (code c).

Fixpoint lstrip_by (p : ascii -> bool) (s : string) : string :=
  match s with
  | String c r => if p c then lstrip_by p r else s
  | EmptyString => EmptyString
  end.

Fixpoint rstrip_by (p : ascii -> bool) (s : string) : string :=
  match s with
  | EmptyString => EmptyString
  | String c r =>
      match rstrip_by p r with
      | EmptyString => if p c then EmptyString else String c EmptyString
      | r' => String c r'
      end
  end.

Definition strip_by (p : ascii -> bool) (s : string) : string :=
  rstrip_by p (lstrip_by p s).

(** [str.strip()] *)
Definition strip : string -> string := strip_by isspace.

(** [str.lower()] on Latin-1: A-Z and the accented capitals except the
    multiplication sign. *)
Definition lower_char (c : ascii) : ascii :=
  let k := code c in
  if between 65 90 k || (between 192 222 k && negb (k =? 215))
  then ascii_of_N (Z.to_N (k + 32)) else c.

Fixpoint lower (s : string) : string :=
  match s with
  | EmptyString => EmptyString
  | String c r => String (lower_char c) (lower r)
  end.

(** [sub in s] *)
Fixpoint contains (sub s : string) : bool :=
  if prefix sub s then true
  else match s with
       | EmptyString => false
       | String _ r => contains sub r
       end.

(** [s[:k]] *)
Definition take (k : nat) (s : string) : string := substring 0 k s.

(** [str(z)] for an [int] *)
Definition of_Z (z : Z) : string := NilZero.string_of_int (Z.to_int z).

End PyStr.

(** ** Python float operations

    Every conversion is computed exactly over [Z] and rounded once, to
    nearest with ties to even, as CPython does. *)

Module PyFloat.

(** The binary64 value nearest to the rational [p/q], with sign [neg]. *)
Definition nearest_float (neg : bool) (p q : positive) : spec_float :=
  SFdiv prec emax (S754_finite neg p 0) (S754_finite false q 0).

Definition signed_zero (neg : bool) : float := if neg then neg_zero else zero.
Definition signed_inf (neg : bool) : float := if neg then neg_infinity else infinity.

(** [float(z)] for an [int]: OverflowError beyond the largest float. *)
Definition of_Z (z : Z) : result float :=
  match binary_normalize prec emax z 0 false with
  | S754_infinity _ => Raise OverflowError
  | sf => Ok (SF2Prim sf)
  end.

(** [int(x)]: truncation toward zero; NaN and infinities are rejected. *)
Definition to_Z (x : float) : result Z :=
  match Prim2SF x with
  | S754_nan => Raise ValueError
  | S754_infinity _ => Raise OverflowError
  | S754_zero _ => Ok 0
  | S754_finite s m e =>
      let a := if 0 <=? e then Zpos m * 2 ^ e else Zpos m / 2 ^ (- e) in
      Ok (if s then - a else a)
  end.

(** Magnitudes from [overflow_bound] on round to infinity. *)
Definition overflow_bound : Z := 2 ^ 1024 - 2 ^ 970.

(** [a / b] on [int]s: the correctly rounded quotient. *)
Definition truediv (a b : Z) : result float :=
  match b with
  | Z0 => Raise ZeroDivisionError
  | _ =>
      match a with
      | Z0 => Ok (signed_zero (b <? 0))
      | _ =>
          if overflow_bound * Z.abs b <=? Z.abs a then Raise OverflowError
          else Ok (SF2Prim (nearest_float (xorb (a <? 0) (b <? 0))
                              (Z.to_pos (Z.abs a)) (Z.to_pos (Z.abs b))))
      end
  end.

Definition round_half_even (num den : Z) : Z :=
  let q := num / den in
  match 2 * (num mod den) ?= den with
  | Lt => q
  | Gt => q + 1
  | Eq => if Z.even q then q else q + 1
  end.

(** [round(x, ndigits)] for [ndigits >= 0]: the decimal rounding of the
    exact value of [x] (ties to even), read back as a float.  NaN and
    infinities round to themselves. *)
Definition round (x : float) (ndigits : nat) : float :=
  match Prim2SF x with
  | S754_finite s m e =>
      if (323 <? Z.of_nat ndigits) then x
      else
        let p10 := 10 ^ Z.of_nat ndigits in
        let k := if 0 <=? e then Zpos m * 2 ^ e * p10
                 else round_half_even (Zpos m * p10) (2 ^ (- e)) in
        match k with
        | Zpos kp => SF2Prim (nearest_float s kp (Z.to_pos p10))
        | _ => signed_zero s
        end
  | _ => x
  end.

Definition digits10 (p : positive) : Z := Z.of_nat (Decimal.nb_digits (Pos.to_uint p)).

(** The float nearest to [D * 10^E]; decimal exponents far outside the
    binary64 range are settled without computing the power. *)
Definition of_decimal (neg : bool) (D : N) (E : Z) : float :=
  match D with
  | N0 => signed_zero neg
  | Npos d =>
      let top := digits10 d + E in
      if 400 <? top then signed_inf neg
      else if top <? -400 then signed_zero neg
      else SF2Prim (if 0 <=? E then nearest_float neg (d * Z.to_pos (10 ^ E)) 1
                    else nearest_float neg d (Z.to_pos (10 ^ (- E))))
  end.

(** Whitespace that [float(str)] strips. *)
Definition parse_space (c : ascii) : bool :=
  let k := PyStr.code c in
  PyStr.between 9 13 k || (k =? 32) || (k =? 133) || (k =? 160).

Definition ascii_lower_char (c : ascii) : ascii :=
  let k := PyStr.code c in
  if PyStr.between 65 90 k then ascii_of_N (Z.to_N (k + 32)) else c.

Fixpoint ascii_lower (s : string) : string :=
  match s with
  | EmptyString => EmptyString
  | String c r => String (ascii_lower_char c) (ascii_lower r)
  end.

Definition is_underscore (c : ascii) : bool := PyStr.code c =? 95.

(** Digit-group underscores: allowed only between two digits. *)
Fixpoint drop_underscores (prev : option ascii) (s : string) : option string :=
  match s with
  | EmptyString =>
      match prev with
      | Some p => if is_underscore p then None else Some EmptyString
      | None => Some EmptyString
      end
  | String c r =>
      let prev_digit := match prev with Some p => PyStr.isdigit p | None => false end in
      let prev_us := match prev with Some p => is_underscore p | None => false end in
      if is_underscore c then
        if prev_digit then drop_underscores (Some c) r else None
      else if prev_us && negb (PyStr.isdigit c) then None
      else option_map (String c) (drop_underscores (Some c) r)
  end.

Fixpoint span_digits (s : string) : string * string :=
  match s with
  | String c r =>
      if PyStr.isdigit c then let (d, t) := span_digits r in (String c d, t)
      else (EmptyString, s)
  | EmptyString => (EmptyString, EmptyString)
  end.

Definition parse_sign (s : string) : bool * string :=
  match s with
  | String c r =>
      if PyStr.code c =? 45 then (true, r)
      else if PyStr.code c =? 43 then (false, r)
      else (false, s)
  | EmptyString => (false, s)
  end.

Definition digits_value (d : string) : N :=
  match NilEmpty.uint_of_string d with
  | Some u => N.of_uint u
  | None => 0%N
  end.

Definition parse_exponent (s : string) : option Z :=
  match s with
  | EmptyString => Some 0
  | String c r =>
      if (PyStr.code c =? 101) || (PyStr.code c =? 69) then
        let (eneg, r1) := parse_sign r in
        let (ed, r2) := span_digits r1 in
        match ed, r2 with
        | String _ _, EmptyString =>
            let v := Z.of_N (digits_value ed) in Some (if eneg then - v else v)
        | _, _ => None
        end
      else None
  end.

Definition parse_decimal (neg : bool) (s : string) : option float :=
  let (ip, r1) := span_digits s in
  let (fp, r2) := match r1 with
                  | String c r => if PyStr.code c =? 46 then span_digits r else (EmptyString, r1)
                  | EmptyString => (EmptyString, r1)
                  end in
  match ip ++ fp with
  | EmptyString => None
  | ds =>
      match parse_exponent r2 with
      | Some ex => Some (of_decimal neg (digits_value ds) (ex - Z.of_nat (length fp)))
      | None => None
      end
  end.

(** [float(s)] for a [str] *)
Definition of_string (s : string) : result float :=
  match drop_underscores None (PyStr.strip_by parse_space s) with
  | None => Raise ValueError
  | Some t =>
      let (neg, body) := parse_sign t in
      let w := ascii_lower body in
      if String.eqb w "inf" || String.eqb w "infinity" then Ok (signed_inf neg)
      else if String.eqb w "nan" then Ok nan
      else match parse_decimal neg body with
           | Some x => Ok x
           | None => Raise ValueError
           end
  end.

(** Position of the decimal point: [num/den = 0.d1d2... * 10^decpt]. *)
Definition decpt (num den : positive) : Z :=
  if (den <=? num)%positive then digits10 (Z.to_pos (Zpos num / Zpos den))
  else - (digits10 (Z.to_pos ((Zpos den - 1) / Zpos num)) - 1).

Definition roundtrips (x : float) (c : Z) (t : Z) : bool :=
  Leibniz.eqb (of_decimal false (Z.to_N c) t) x.

(** Shortest decimal [c * 10^t] that reads back as [x], trying 1, 2, ...
    significant digits; among the two neighbours the nearer one wins. *)
Fixpoint shortest (fuel : nat) (x : float) (num den : Z) (k : Z) (d : Z) : Z * Z :=
  let t := k - d in
  let n' := if t <? 0 then num * 10 ^ (- t) else num in
  let d' := if t <? 0 then den else den * 10 ^ t in
  let lo := n' / d' in
  let r := n' mod d' in
  let hi := lo + 1 in
  let pick :=
    if r =? 0 then Some lo
    else match roundtrips x lo t, roundtrips x hi t with
         | true, true =>
             match 2 * r ?= d' with
             | Lt => Some lo
             | Gt => Some hi
             | Eq => Some (if Z.even lo then lo else hi)
             end
         | true, false => Some lo
         | false, true => Some hi
         | false, false => None
         end in
  match pick, fuel with
  | Some c, _ => (c, t)
  | None, S f => shortest f x num den k (d + 1)
  | None, O => (lo, t)
  end.

Fixpoint rstrip_zeros (s : string) : string :=
  match s with
  | EmptyString => EmptyString
  | String c r =>
      match rstrip_zeros r with
      | EmptyString => if PyStr.code c =? 48 then EmptyString else String c EmptyString
      | r' => String c r'
      end
  end.

Fixpoint zeros (k : nat) : string :=
  match k with O => EmptyString | S j => String "0" (zeros j) end.

Definition format_repr (digs : string) (dp : Z) : string :=
  let len := Z.of_nat (length digs) in
  if (dp <=? -4) || (16 <? dp) then
    let e := dp - 1 in
    let mant := match digs with
                | String c EmptyString => digs
                | String c r => String c ("." ++ r)
                | EmptyString => digs
                end in
    let es := PyStr.of_Z (Z.abs e) in
    mant ++ "e" ++ (if e <? 0 then "-" else "+")
         ++ (if Z.abs e <? 10 then "0" else "") ++ es
  else if dp <=? 0 then "0." ++ zeros (Z.to_nat (- dp)) ++ digs
  else if len <=? dp then digs ++ zeros (Z.to_nat (dp - len)) ++ ".0"
  else substring 0 (Z.to_nat dp) digs ++ "." ++ substring (Z.to_nat dp) (Z.to_nat (len - dp)) digs.

(** [repr(x)], which is also [str(x)] *)
Definition repr (x : float) : string :=
  match Prim2SF x with
  | S754_nan => "nan"
  | S754_infinity s => if s then "-inf" else "inf"
  | S754_zero s => if s then "-0.0" else "0.0"
  | S754_finite s m e =>
      let num := if 0 <=? e then Zpos m * 2 ^ e else Zpos m in
      let den := if 0 <=? e then 1 else 2 ^ (- e) in
      let k := decpt (Z.to_pos num) (Z.to_pos den) in
      let (c, t) := shortest 17 (abs x) num den k 1 in
      let full := PyStr.of_Z c in
      let digs := rstrip_zeros full in
      (if s then "-" else "") ++ format_repr digs (t + Z.of_nat (length full))
  end.

End PyFloat.

(** ** Worksheet cells and the three coercions *)

(** A cell value as the workbook loader hands it over: empty, text, an
    integer, a float, a boolean, or another object (a date or a time),
    which is known only by its [str()] text. *)
Inductive cell : Type :=
| CNone
| CStr (t : string)
| CInt (z : Z)
| CFloat (x : float)
| CBool (b : bool)
| CObj (shown : string).

(** [str(v)].  Integer cells come from decimal text of the workbook, so
    they stay below the digit limit that the interpreter sets on the
    conversion of an integer to text. *)
Definition py_str (v : cell) : string :=
  match v with
  | CNone => "None"
  | CStr t => t
  | CInt z => PyStr.of_Z z
  | CFloat x => PyFloat.repr x
  | CBool b => if b then "True" else "False"
  | CObj t => t
  end.

(** [float(v)] *)
Definition py_float (v : cell) : result float :=
  match v with
  | CNone => Raise TypeError
  | CStr t => PyFloat.of_string t
  | CInt z => PyFloat.of_Z z
  | CFloat x => Ok x
  | CBool b => Ok (if b then one else zero)
  | CObj _ => Raise TypeError
  end.

(** [def n(v)] *)
Definition n (v : cell) : result (option float) :=
  match v with
  | CNone => Ok None
  | _ => try_except (let* x := py_float v in Ok (Some x)) (Ok None)
  end.

(** [def s(v)] *)
Definition s (v : cell) : result (option string) :=
  match v with
  | CNone => Ok None
  | _ => Ok (Some (PyStr.strip (py_str v)))
  end.

(** [def i(v)] *)
Definition i (v : cell) : result (option Z) :=
  match v with
  | CNone => Ok None
  | _ => try_except
           (let* x := py_float v in let* z := PyFloat.to_Z x in Ok (Some z))
           (Ok None)
  end.

(** Python truth value of a coerced field. *)
Definition str_truthy (o : option string) : bool :=
  match o with
  | Some t => negb (String.eqb t "")
  | None => false
  end.

Definition int_truthy (o : option Z) : bool :=
  match o with
  | Some z => negb (z =? 0)
  | None => false
  end.

Definition float_truthy (o : option float) : bool :=
  match o with
  | Some x => negb (is_zero x)
  | None => false
  end.

(** ** Python values sent to and received from the backend *)

#[local] Set Warnings "-register-all".
Inductive json : Type :=
| JNull
| JBool (b : bool)
| JInt (z : Z)
| JFloat (x : float)
| JStr (t : string)
| JList (l : list json)
| JDict (d : list (string * json)).

Definition dict : Type := list (string * json).

Fixpoint dict_get (k : string) (d : dict) : option json :=
  match d with
  | [] => None
  | (k', v) :: r => if String.eqb k k' then Some v else dict_get k r
  end.

(** [d[k] = v]: overwrite in place, or append a new key. *)
Fixpoint dict_set (k : string) (v : json) (d : dict) : dict :=
  match d with
  | [] => [(k, v)]
  | (k', v') :: r =>
      if String.eqb k k' then (k', v) :: r else (k', v') :: dict_set k v r
  end.

Definition of_float (o : option float) : json :=
  match o with Some x => JFloat x | None => JNull end.

Definition of_str (o : option string) : json :=
  match o with Some t => JStr t | None => JNull end.

Definition of_int (o : option Z) : json :=
  match o with Some z => JInt z | None => JNull end.

(** [bool(v)] *)
Definition truthy (v : json) : bool :=
  match v with
  | JNull => false
  | JBool b => b
  | JInt z => negb (z =? 0)
  | JFloat x => negb (is_zero x)
  | JStr t => negb (String.eqb t "")
  | JList l => match l with [] => false | _ => true end
  | JDict d => match d with [] => false | _ => true end
  end.

(** [len(v)] *)
Definition py_len (v : json) : result Z :=
  match v with
  | JStr t => Ok (Z.of_nat (String.length t))
  | JList l => Ok (Z.of_nat (List.length l))
  | JDict d => Ok (Z.of_nat (List.length d))
  | _ => Raise TypeError
  end.

(** [v[0]] *)
Definition index0 (v : json) : result json :=
  match v with
  | JList (x :: _) => Ok x
  | JList [] => Raise IndexError
  | JStr (String c _) => Ok (JStr (String c EmptyString))
  | JStr EmptyString => Raise IndexError
  | JDict _ => Raise KeyError
  | _ => Raise TypeError
  end.

(** [v[k]] for a string key [k] *)
Definition getitem (v : json) (k : string) : result json :=
  match v with
  | JDict d => match dict_get k d with Some x => Ok x | None => Raise KeyError end
  | _ => Raise TypeError
  end.

(** [k in v] for a string [k] *)
Definition py_in (k : string) (v : json) : result bool :=
  match v with
  | JDict d => Ok (match dict_get k d with Some _ => true | None => false end)
  | JStr t => Ok (PyStr.contains k t)
  | JList l =>
      Ok (existsb (fun e => match e with JStr t => String.eqb t k | _ => false end) l)
  | _ => Raise TypeError
  end.

(** [v and len(v) > 0] taken as a condition *)
Definition nonempty (v : json) : result bool :=
  if truthy v then let* k := py_len v in Ok (0 <? k) else Ok false.

(** [v[0]["id"]] *)
Definition first_id (v : json) : result json :=
  let* e := index0 v in getitem e "id".

(** ** Workbook *)

Record sheet : Type := {
  max_row : Z;
  value : string -> Z -> cell   (* [ws[f"{col}{row}"].value] *)
}.

Definition workbook : Type := string -> option sheet.

(** [wb[name]] *)
Definition wb_sheet (wb : workbook) (name : string) : result sheet :=
  match wb name with
  | Some ws => Ok ws
  | None => Raise KeyError
  end.

(** [range(lo, hi)] *)
Definition range (lo hi : Z) : list Z :=
  map (fun k => lo + Z.of_nat k) (seq 0 (Z.to_nat (hi - lo))).

(** [range(0, stop, step)] for a positive [step]: its length is
    [(stop + step - 1) // step]. *)
Definition range_step (stop step : nat) : list nat :=
  map (fun k => (k * step)%nat) (seq 0 ((stop + step - 1) / step)%nat).

(** [l[a:b]] for [0 <= a <= b] *)
Definition slice {A : Type} (a b : nat) (l : list A) : list A :=
  firstn (b - a) (skipn a l).

(** The rows that a [for row in ...] loop keeps: [body] yields [None] on
    [continue] and the appended record otherwise. *)
Fixpoint collect (rows : list Z) (body : Z -> result (option json)) : result (list json) :=
  match rows with
  | [] => Ok []
  | r :: rest =>
      let* o := body r in
      let* acc := collect rest body in
      Ok (match o with Some rec => rec :: acc | None => acc end)
  end.

(** ** The HTTP transport and the run-time state *)

Inductive method : Type := GET | POST.

(** A call [requests.<method>(url, headers=..., json=data, params=params)];
    the fixed credential headers are left out. *)
Record request : Type := {
  req_method : method;
  req_url : string;
  req_json : option json;
  req_params : list (string * string)
}.

(** What the script reads from a response: [r.status_code], [r.text] and
    [r.json()], which is [None] here when the body does not parse. *)
Record response : Type := {
  status_code : Z;
  text : string;
  parsed : option json
}.

(** The backend behind the [requests] library: a state machine answering
    each request that reaches it, or failing to answer ([None]): the call
    then raises a [requests.RequestException]. *)
Class Transport (W : Type) : Type :=
  transmit : W -> request -> W * option response.

(** [json.dumps(data, allow_nan=False)] succeeds: no float of the payload
    is nan or an infinity.  Every other value that the script puts in a
    payload has a JSON form. *)
Fixpoint json_finite (j : json) : bool :=
  match j with
  | JFloat x => is_finite x
  | JList l => forallb json_finite l
  | JDict d => forallb (fun p => json_finite (snd p)) d
  | _ => true
  end.

(** [requests] builds the body of a call before it opens a connection:
    [json=None] gives no body, any other payload is serialised. *)
Definition serialisable (r : request) : bool :=
  match req_json r with
  | Some body => json_finite body
  | None => true
  end.

(** The call [requests.<method>(...)] as the script sees it.  A payload
    that cannot be serialised raises [requests.InvalidJSONError] before
    anything reaches the backend, which stays as it was; [None] stands
    for a call that raised. *)
Definition send {W : Type} `{Transport W} (w : W) (r : request) : W * option response :=
  if serialisable r then transmit w r else (w, None).

(** Console lines; interpolated values are kept as data. *)
Inductive line : Type :=
| Text (t : string)
| Banner (title : string)                  (* [\n=== title ===] *)
| ErrorLine (status : Z) (body : string)     (* [  ERROR {status}: {body}] *)
| UsingExisting (name id : json)
| CreatedEvent (id : json)
| SqlResult (body : string)
| Inserted (count : nat) (what : string)
| Complete.                                (* [\n], U+2705, [ Seeding complete!] *)

Inductive event : Type :=
| Sent (r : request)
| Printed (l : line).

Record state (W : Type) : Type := {
  world : W;
  trace : list event
}.
Arguments world {W} _.
Arguments trace {W} _.

Definition M (W A : Type) : Type := state W -> state W * result A.

Definition ret {W A : Type} (a : A) : M W A := fun st => (st, Ok a).

Definition bind {W A B : Type} (m : M W A) (k : A -> M W B) : M W B :=
  fun st =>
    match m st with
    | (st', Ok a) => k a st'
    | (st', Raise e) => (st', Raise e)
    end.

Definition raise {W A : Type} (e : exn) : M W A := fun st => (st, Raise e).

Definition lift {W A : Type} (r : result A) : M W A := fun st => (st, r).

Notation "x <- m ;; k" := (bind m (fun x => k))
  (at level 61, m at next level, right associativity).
Notation "m ;;; k" := (bind m (fun _ => k))
  (at level 61, right associativity).

Definition print {W : Type} (l : line) : M W unit :=
  fun st => ({| world := world st; trace := trace st ++ [Printed l] |}, Ok tt).

(** One call of [requests]; [Sent r] records that [r] went out to the
    backend, which a call that fails on its payload never does. *)
Definition http {W : Type} `{Transport W} (r : request) : M W response :=
  fun st =>
    if serialisable r then
      let (w', o) := transmit (world st) r in
      let st' := {| world := w'; trace := trace st ++ [Sent r] |} in
      match o with
      | Some resp => (st', Ok resp)
      | None => (st', Raise RequestException)
      end
    else (st, Raise InvalidJSONError).

(** [for x in l: body(x)] *)
Fixpoint for_each {W A : Type} (l : list A) (body : A -> M W unit) : M W unit :=
  match l with
  | [] => ret tt
  | x :: rest => body x ;;; for_each rest body
  end.

(** Exit status of the process for a finished run. *)
Definition exit_status (r : result unit) : Z :=
  match r with
  | Ok _ => 0
  | Raise (SystemExit c) => c
  | Raise _ => 1
  end.

(** ** The remote write client *)

Definition SUPABASE_URL : string := "https://ayxsaylqhjfgwlchkeek.supabase.co".

Definition rest_url (table : string) : string :=
  (SUPABASE_URL ++ "/rest/v1/" ++ table)%string.

Definition rest_request (m : method) (table : string) (data : option json)
  (params : list (string * string)) : request :=
  {| req_method := m; req_url := rest_url table; req_json := data; req_params := params |}.

(** [def api(method, table, data=None, params=None)] *)
Definition api {W : Type} `{Transport W} (m : method) (table : string)
  (data : option json) (params : list (string * string)) : M W json :=
  r <- http (rest_request m table data params) ;;
  if 400 <=? status_code r then
    print (ErrorLine (status_code r) (PyStr.take 200 (text r))) ;;;
    ret JNull
  else
    ret (match parsed r with
         | Some j => j
         | None => JStr (text r)
         end).

(** ** Resolving the parent event *)

Definition event_query {W : Type} `{Transport W} : M W json :=
  api GET "events" None [("select", "id,name"); ("limit", "1")].

Definition event_data : dict :=
  [ ("name", JStr "Lincoln CDJR Feb/March 26");
    ("slug", JStr "lincoln-cdjr-feb-march-26");
    ("status", JStr "active");
    ("location", JStr "Lincoln, IL 62656");
    ("start_date", JStr "2026-02-24");
    ("end_date", JStr "2026-03-03");
    ("budget", JInt 50000) ].

Definition sql_insert : string :=
  "INSERT INTO events (name, slug, status, location, start_date, end_date, budget) VALUES ('Lincoln CDJR Feb/March 26', 'lincoln-cdjr-feb-march-26', 'active', 'Lincoln, IL 62656', '2026-02-24', '2026-03-03', 50000) RETURNING id;".

Definition sql_request : request :=
  {| req_method := POST;
     req_url := "https://api.supabase.com/v1/projects/ayxsaylqhjfgwlchkeek/database/query";
     req_json := Some (JDict [("query",
                   JStr ("ALTER TABLE events ALTER COLUMN created_by DROP NOT NULL; " ++ sql_insert)%string)]);
     req_params := [] |}.

(** The loop over the rows of the SQL answer; any exception ends it and
    keeps the identifier assigned so far ([except: pass]). *)
Fixpoint sql_scan (data : list json) (event_id : json) : json :=
  match data with
  | [] => event_id
  | d :: rest =>
      match d with
      | JList (d0 :: _) =>
          match py_in "id" d0 with
          | Ok true =>
              match getitem d0 "id" with
              | Ok v => sql_scan rest v
              | Raise _ => event_id
              end
          | Ok false => sql_scan rest event_id
          | Raise _ => event_id
          end
      | _ => sql_scan rest event_id
      end
  end.

(** The [try] block reading the SQL answer. *)
Definition sql_result (r : response) (event_id : json) : json :=
  match parsed r with
  | Some (JList data) => sql_scan data event_id
  | _ => event_id
  end.

(** Step 1 of the script, up to the fatal check. *)
Definition resolve_event {W : Type} `{Transport W} : M W json :=
  print (Banner "EVENT") ;;;
  events <- event_query ;;
  found <- lift (nonempty events) ;;
  if found then
    event_id <- lift (first_id events) ;;
    name <- lift (let* e := index0 events in getitem e "name") ;;
    print (UsingExisting name event_id) ;;;
    ret event_id
  else
    users <- api GET "profiles" None [("select", "id"); ("limit", "1")] ;;
    has_user <- lift (nonempty users) ;;
    user_id <- lift (if has_user then first_id users else Ok JNull) ;;
    let data := if truthy user_id then dict_set "created_by" user_id event_data
                else event_data in
    created <- api POST "events" (Some (JDict data)) [] ;;
    has_row <- lift (nonempty created) ;;
    event_id <- lift (if has_row then first_id created else Ok JNull) ;;
    print (CreatedEvent event_id) ;;;
    if negb (truthy event_id) then
      print (Text "  Trying with SQL...") ;;;
      r <- http sql_request ;;
      print (SqlResult (PyStr.take 200 (text r))) ;;;
      let event_id := sql_result r event_id in
      if negb (truthy event_id) then
        events <- event_query ;;
        found <- lift (nonempty events) ;;
        if found then lift (first_id events) else ret event_id
      else ret event_id
    else ret event_id.

(** ** Row extractors *)

(** A float literal of the script, as Python reads it. *)
Definition lit (t : string) : float :=
  match PyFloat.of_string t with
  | Ok x => x
  | Raise _ => nan
  end.

Definition roles_map : list (string * string) :=
  [("BRYAN ROGERS", "team_leader"); ("BRYANTROGERS", "team_leader")].

(** [roles_map.get(name, default)] *)
Fixpoint map_get (k : string) (m : list (string * string)) (default : string) : string :=
  match m with
  | [] => default
  | (k', v) :: r => if String.eqb k k' then v else map_get k r default
  end.

(** [x in (a, b, ...)] for strings *)
Definition str_in (x : string) (l : list string) : bool :=
  existsb (String.eqb x) l.

(** One pass of the roster loop. *)
Definition roster_row (ws : sheet) (event_id : json) (row : Z) : result (option json) :=
  let* name := s (value ws "C" row) in
  let* phone := s (value ws "D" row) in
  match name with
  | Some nm =>
      if negb (str_truthy name) || str_in (PyStr.lower nm) ["none"; "spare"]
      then Ok None
      else
        let role := map_get nm roles_map "sales" in
        Ok (Some (JDict
          [ ("event_id", event_id);
            ("name", JStr nm);
            ("phone", of_str phone);
            ("role", JStr role);
            ("confirmed", JBool true);
            ("commission_pct", JFloat (lit "0.25")) ]))
  | None => Ok None
  end.

(** One pass of the lenders loop. *)
Definition lender_row (ws : sheet) (event_id : json) (row : Z) : result (option json) :=
  let* name := s (value ws "I" row) in
  let* pct := n (value ws "K" row) in
  if negb (str_truthy name) then Ok None
  else
    Ok (Some (JDict
      [ ("event_id", event_id);
        ("name", of_str name);
        ("buy_rate_pct", of_float pct) ])).

(** [(1.15, "115"), (1.20, "120"), (1.25, "125"), (1.30, "130")] *)
Definition tiers : list (float * string) :=
  [ (lit "1.15", "115"); (lit "1.20", "120"); (lit "1.25", "125"); (lit "1.30", "130") ].

(** The body of the [for mult, prefix in ...] loop, folded over [tiers]. *)
Fixpoint add_tiers (ts : list (float * string)) (jd_trade unit_cost : float) (item : dict) : dict :=
  match ts with
  | [] => item
  | (mult, prefix) :: rest =>
      let price := PyFloat.round (jd_trade * mult)%float 2 in
      let profit := PyFloat.round (price - unit_cost)%float 2 in
      let item := dict_set ("price_" ++ prefix) (JFloat price) item in
      let item := dict_set ("profit_" ++ prefix) (JFloat profit) item in
      add_tiers rest jd_trade unit_cost item
  end.

(** [if jd_trade and unit_cost: ...] *)
Definition pricing (jd_trade unit_cost : option float) (item : dict) : dict :=
  match jd_trade, unit_cost with
  | Some t, Some c =>
      if float_truthy jd_trade && float_truthy unit_cost then
        add_tiers tiers t c
          (dict_set "cost_diff" (JFloat (PyFloat.round (t - c)%float 2)) item)
      else item
  | _, _ => item
  end.

(** [if jd_retail and unit_cost: ...] *)
Definition retail_spread (jd_retail unit_cost : option float) (item : dict) : dict :=
  match jd_retail, unit_cost with
  | Some r, Some c =>
      if float_truthy jd_retail && float_truthy unit_cost then
        dict_set "retail_spread" (JFloat (PyFloat.round (r - c)%float 2)) item
      else item
  | _, _ => item
  end.

(** ["sold" if sold_raw and "sold" in sold_raw.lower() else "available"] *)
Definition sold_status (sold_raw : option string) : string :=
  match sold_raw with
  | Some t =>
      if str_truthy sold_raw && PyStr.contains "sold" (PyStr.lower t)
      then "sold" else "available"
  | None => "available"
  end.

(** One pass of the inventory loop. *)
Definition inventory_row (ws_inv : sheet) (event_id : json) (row : Z) : result (option json) :=
  let cellv := fun col => value ws_inv col row in
  let* hat := i (cellv "A") in
  let* name_val := s (cellv "G") in
  if negb (str_truthy name_val) && negb (int_truthy hat) then Ok None
  else
    let* unit_cost := n (cellv "Q") in
    let* jd_trade := n (cellv "O") in
    let* jd_retail := n (cellv "P") in
    let* sold_raw := s (cellv "C") in
    let* status_label := s (cellv "B") in
    let* stock_number := s (cellv "D") in
    let* year := i (cellv "E") in
    let* make := s (cellv "F") in
    let* class := s (cellv "H") in
    let* color := s (cellv "I") in
    let* odometer := i (cellv "J") in
    let* vin := s (cellv "K") in
    let* series_trim := s (cellv "L") in
    let* age_days := i (cellv "M") in
    let* drivetrain := s (cellv "N") in
    let inv_item : dict :=
      [ ("event_id", event_id);
        ("hat_number", of_int hat);
        ("status_label", of_str status_label);
        ("sold_status", JStr (sold_status sold_raw));
        ("stock_number", of_str stock_number);
        ("year", of_int year);
        ("make", of_str make);
        ("model", of_str name_val);
        ("class", of_str class);
        ("color", of_str color);
        ("odometer", of_int odometer);
        ("vin", of_str vin);
        ("series_trim", of_str series_trim);
        ("age_days", of_int age_days);
        ("drivetrain", of_str drivetrain);
        ("jd_trade_clean", of_float jd_trade);
        ("jd_retail_clean", of_float jd_retail);
        ("unit_cost", of_float unit_cost) ] in
    Ok (Some (JDict (retail_spread jd_retail unit_cost (pricing jd_trade unit_cost inv_item)))).

(** One pass of the deal-log loop. *)
Definition deal_row (ws_deals : sheet) (event_id : json) (row : Z) : result (option json) :=
  let cellv := fun col => value ws_deals col row in
  let* customer := s (cellv "I") in
  let* stock := s (cellv "H") in
  if negb (str_truthy customer) && negb (str_truthy stock) then Ok None
  else
    let* front := n (cellv "Y") in
    let* fi_total := n (cellv "AF") in
    let* total := n (cellv "AG") in
    let* deal_number := i (cellv "E") in
    let* store := s (cellv "G") in
    let* zip_code := s (cellv "J") in
    let* new_used := s (cellv "K") in
    let* purchase_year := i (cellv "L") in
    let* purchase_make := s (cellv "M") in
    let* purchase_model := s (cellv "N") in
    let* vehicle_cost := n (cellv "O") in
    let* vehicle_age := i (cellv "P") in
    let* trade_year := i (cellv "Q") in
    let* trade_make := s (cellv "R") in
    let* trade_model := s (cellv "S") in
    let* salesperson := s (cellv "W") in
    let* second_salesperson := s (cellv "X") in
    let* lender := s (cellv "Z") in
    let* rate := n (cellv "AA") in
    let* reserve := n (cellv "AB") in
    let* warranty := n (cellv "AC") in
    let* aft1 := n (cellv "AD") in
    let* gap := n (cellv "AE") in
    let* jde_pay := n (cellv "AK") in
    Ok (Some (JDict
      [ ("event_id", event_id);
        ("deal_number", of_int deal_number);
        ("sale_day", JInt 1);
        ("store", of_str store);
        ("stock_number", of_str stock);
        ("customer_name", of_str customer);
        ("zip_code", of_str zip_code);
        ("new_used", of_str new_used);
        ("purchase_year", of_int purchase_year);
        ("purchase_make", of_str purchase_make);
        ("purchase_model", of_str purchase_model);
        ("vehicle_cost", of_float vehicle_cost);
        ("vehicle_age", of_int vehicle_age);
        ("trade_year", of_int trade_year);
        ("trade_make", of_str trade_make);
        ("trade_model", of_str trade_model);
        ("salesperson", of_str salesperson);
        ("second_salesperson", of_str second_salesperson);
        ("front_gross", of_float front);
        ("lender", of_str lender);
        ("rate", of_float rate);
        ("reserve", of_float reserve);
        ("warranty", of_float warranty);
        ("aft1", of_float aft1);
        ("gap", of_float gap);
        ("fi_total", of_float fi_total);
        ("total_gross", of_float total);
        ("jde_pay", of_float jde_pay);
        ("source", JStr "Mail") ])).

(** [x or 0] for a coerced integer *)
Definition or_zero (o : option Z) : json :=
  match o with
  | Some z => if int_truthy o then JInt z else JInt 0
  | None => JInt 0
  end.

(** [round(total_resp / pieces, 4) if pieces and total_resp else 0] *)
Definition response_rate (pieces total_resp : option Z) : result json :=
  match pieces, total_resp with
  | Some p, Some t =>
      if int_truthy pieces && int_truthy total_resp then
        let* q := PyFloat.truediv t p in Ok (JFloat (PyFloat.round q 4))
      else Ok (JInt 0)
  | _, _ => Ok (JInt 0)
  end.

(** One pass of the mail-tracking loop. *)
Definition mail_row (ws_mail : sheet) (event_id : json) (row : Z) : result (option json) :=
  let cellv := fun col => value ws_mail col row in
  let* zip_code := s (cellv "E") in
  let* town := s (cellv "D") in
  if negb (str_truthy zip_code) || negb (str_truthy town) then Ok None
  else
    let* pieces := i (cellv "B") in
    let* total_resp := i (cellv "F") in
    let* day1 := i (cellv "G") in
    let* day2 := i (cellv "H") in
    let* day3 := i (cellv "I") in
    let* day4 := i (cellv "J") in
    let* day5 := i (cellv "K") in
    let* day6 := i (cellv "L") in
    let* day7 := i (cellv "M") in
    let* rate := response_rate pieces total_resp in
    Ok (Some (JDict
      [ ("event_id", event_id);
        ("campaign_name", JStr "WIN BIG");
        ("zip_code", of_str zip_code);
        ("town", of_str town);
        ("pieces_sent", of_int pieces);
        ("day1_responses", or_zero day1);
        ("day2_responses", or_zero day2);
        ("day3_responses", or_zero day3);
        ("day4_responses", or_zero day4);
        ("day5_responses", or_zero day5);
        ("day6_responses", or_zero day6);
        ("day7_responses", or_zero day7);
        ("total_responses", or_zero total_resp);
        ("response_rate", rate) ])).

Definition config (event_id : json) : dict :=
  [ ("event_id", event_id);
    ("dealer_name", JStr "Lincoln CDJR");
    ("franchise", JStr "Chrysler Dodge Jeep Ram");
    ("city", JStr "Lincoln");
    ("state", JStr "IL");
    ("zip", JStr "62656");
    ("sale_days", JInt 6);
    ("doc_fee", JFloat (lit "377.65"));
    ("tax_rate", JFloat (lit "0.0625"));
    ("pack", JInt 0);
    ("mail_title", JStr "WIN BIG");
    ("mail_pieces", JInt 70000);
    ("jde_commission_pct", JFloat (lit "0.35"));
    ("rep_commission_pct", JFloat (lit "0.25"));
    ("target_units", JInt 50);
    ("target_avg_gross", JFloat (lit "8144.35")) ].

(** ** The seeding stages and [main] *)

Section Stages.
Context {W : Type} `{Transport W}.

(** [api("post", table, records)] with the answer dropped *)
Definition post (table : string) (data : json) : M W unit :=
  api POST table (Some data) [] ;;; ret tt.

(** [for idx in range(0, len(data), 20): api("post", table, data[idx:idx+20])] *)
Definition post_batches (table : string) (data : list json) : M W unit :=
  for_each (range_step (List.length data) 20)
    (fun idx => post table (JList (slice idx (idx + 20) data))).

(** Section 2 of the script. *)
Definition seed_roster (ws : sheet) (event_id : json) : M W unit :=
  roster_data <- lift (collect (range 2 18) (roster_row ws event_id)) ;;
  post "roster" (JList roster_data) ;;;
  print (Inserted (List.length roster_data) "roster entries").

(** Section 3 of the script. *)
Definition seed_lenders (ws : sheet) (event_id : json) : M W unit :=
  print (Banner "LENDERS") ;;;
  lenders_data <- lift (collect (range 2 20) (lender_row ws event_id)) ;;
  match lenders_data with
  | [] => ret tt
  | _ =>
      post "lenders" (JList lenders_data) ;;;
      print (Inserted (List.length lenders_data) "lenders")
  end.

(** Section 4 of the script. *)
Definition seed_inventory (wb : workbook) (event_id : json) : M W unit :=
  print (Banner "INVENTORY") ;;;
  ws_inv <- lift (wb_sheet wb "INVENTORY") ;;
  inv_data <- lift (collect (range 2 (max_row ws_inv + 1)) (inventory_row ws_inv event_id)) ;;
  match inv_data with
  | [] => ret tt
  | _ =>
      post_batches "vehicle_inventory" inv_data ;;;
      print (Inserted (List.length inv_data) "inventory items")
  end.

(** Section 5 of the script. *)
Definition seed_deals (wb : workbook) (event_id : json) : M W unit :=
  print (Banner "DEALS") ;;;
  ws_deals <- lift (wb_sheet wb "DEAL LOG") ;;
  deals_data <- lift (collect (range 9 (max_row ws_deals + 1)) (deal_row ws_deals event_id)) ;;
  match deals_data with
  | [] => ret tt
  | _ =>
      post "deals_v2" (JList deals_data) ;;;
      print (Inserted (List.length deals_data) "deals")
  end.

(** Section 6 of the script. *)
Definition seed_mail (wb : workbook) (event_id : json) : M W unit :=
  print (Banner "MAIL TRACKING") ;;;
  ws_mail <- lift (wb_sheet wb "MAIL TRACKING") ;;
  mail_data <- lift (collect (range 2 (max_row ws_mail + 1)) (mail_row ws_mail event_id)) ;;
  match mail_data with
  | [] => ret tt
  | _ =>
      post_batches "mail_tracking" mail_data ;;;
      print (Inserted (List.length mail_data) "mail tracking entries")
  end.

(** Section 7 of the script. *)
Definition seed_config (event_id : json) : M W unit :=
  print (Banner "EVENT CONFIG") ;;;
  post "event_config" (JDict (config event_id)) ;;;
  print (Text "  Inserted event config") ;;;
  print Complete.

(** Sections 2 to 7: everything written under the resolved event. *)
Definition seed_children (wb : workbook) (event_id : json) : M W unit :=
  print (Banner "ROSTER") ;;;
  ws <- lift (wb_sheet wb "Roster & Tables") ;;
  seed_roster ws event_id ;;;
  seed_lenders ws event_id ;;;
  seed_inventory wb event_id ;;;
  seed_deals wb event_id ;;;
  seed_mail wb event_id ;;;
  seed_config event_id.

(** [if not event_id: print("FATAL: No event ID"); sys.exit(1)] *)
Definition fatal_check (event_id : json) : M W unit :=
  if negb (truthy event_id) then
    print (Text "FATAL: No event ID") ;;; raise (SystemExit 1)
  else ret tt.

(** The script, run on the loaded workbook. *)
Definition main (wb : workbook) : M W unit :=
  event_id <- resolve_event ;;
  fatal_check event_id ;;;
  seed_children wb event_id.

Definition start (w : W) : state W := {| world := w; trace := [] |}.

End Stages.

(** ** Observations on a trace *)

Definition child_tables : list string :=
  ["roster"; "lenders"; "vehicle_inventory"; "deals_v2"; "mail_tracking"; "event_config"].

(** A write to one of the child tables. *)
Definition is_child_write (r : request) : bool :=
  match req_method r with
  | POST => existsb (fun t => String.eqb (req_url r) (rest_url t)) child_tables
  | GET => false
  end.

Definition sent (tr : list event) : list request :=
  flat_map (fun e => match e with Sent r => [r] | Printed _ => [] end) tr.

Definition child_writes (tr : list event) : list request :=
  filter is_child_write (sent tr).

(** The write calls issued for one table, with their payloads. *)
Definition writes_to (table : string) (tr : list event) : list json :=
  flat_map (fun r =>
    match req_method r, req_json r with
    | POST, Some body => if String.eqb (req_url r) (rest_url table) then [body] else []
    | _, _ => []
    end) (sent tr).

(** The records of a write payload: a list of records, or a single one. *)
Definition records_of (body : option json) : list json :=
  match body with
  | Some (JList l) => l
  | Some d => [d]
  | None => []
  end.

Definition payload_records (body : json) : list json := records_of (Some body).

(** A create call on the parent table. *)
Definition is_event_create (r : request) : bool :=
  match req_method r with
  | POST => String.eqb (req_url r) (rest_url "events") || String.eqb (req_url r) (req_url sql_request)
  | GET => false
  end.

(** ** Reference backends used to run the model *)

(** A backend holding one table of events: the query answers with the
    first stored row, a create appends a row under a fresh identifier,
    every other call is accepted with an empty answer. *)
Definition store_send (rows : list json) (r : request) : list json * option response :=
  if String.eqb (req_url r) (rest_url "events") then
    match req_method r with
    | GET =>
        (rows, Some {| status_code := 200; text := "[...]"; parsed := Some (JList (firstn 1 rows)) |})
    | POST =>
        let row := JDict [("id", JInt (Z.of_nat (S (List.length rows)))); ("name", JStr "new")] in
        ((rows ++ [row])%list,
         Some {| status_code := 201; text := "[...]"; parsed := Some (JList [row]) |})
    end
  else (rows, Some {| status_code := 201; text := "[]"; parsed := Some (JList []) |}).

(** A backend that rejects every call. *)
Definition unavailable : response :=
  {| status_code := 500; text := "unavailable"; parsed := None |}.

Definition failing_send (w : unit) (r : request) : unit * option response :=
  (w, Some unavailable).

Definition empty_sheet : sheet := {| max_row := 1; value := fun _ _ => CNone |}.

(** A sheet with the same row content on rows [lo..hi]. *)
Definition rows_sheet (top : Z) (content : string -> cell) : sheet :=
  {| max_row := top; value := fun col _ => content col |}.

Definition cells (l : list (string * cell)) (col : string) : cell :=
  match find (fun p => String.eqb (fst p) col) l with
  | Some p => snd p
  | None => CNone
  end.

Definition book (l : list (string * sheet)) : workbook :=
  fun name =>
    match find (fun p => String.eqb (fst p) name) l with
    | Some p => Some (snd p)
    | None => None
    end.

Definition sample_roster : sheet :=
  {| max_row := 20;
     value := fun col row =>
       if row =? 2 then
         cells [("C", CStr "Jane Doe"); ("D", CStr "555-1212");
                ("I", CStr "Ally"); ("K", CFloat (lit "5.5"))] col
       else CNone |}.

Definition sample_inventory : sheet :=
  rows_sheet 3
    (cells [("A", CInt 7); ("C", CStr "SOLD 2/24"); ("G", CStr "Ram 1500");
            ("O", CInt 10000); ("Q", CInt 8000)]).

Definition sample_deals : sheet :=
  rows_sheet 29 (cells [("I", CStr "A. Buyer"); ("E", CInt 1)]).

Definition sample_mail : sheet :=
  rows_sheet 2
    (cells [("E", CInt 62656); ("D", CStr "Lincoln"); ("B", CInt 1000); ("F", CInt 50)]).

(** A small workbook: one roster row, one lender, two vehicles,
    21 deals, one mail row. *)
Definition sample_book : workbook :=
  book [ ("Roster & Tables", sample_roster); ("INVENTORY", sample_inventory);
         ("DEAL LOG", sample_deals); ("MAIL TRACKING", sample_mail) ].

(** The record of the first sample vehicle. *)
Definition sample_item : dict :=
  match inventory_row sample_inventory (JInt 1) 2 with
  | Ok (Some (JDict d)) => d
  | _ => []
  end.

(** The record of the sample mail row. *)
Definition sample_entry : dict :=
  match mail_row sample_mail (JInt 1) 2 with
  | Ok (Some (JDict d)) => d
  | _ => []
  end.

(** A vehicle with a trade value of zero. *)
Definition zero_trade_inventory : sheet :=
  rows_sheet 2 (cells [("G", CStr "Ram 1500"); ("O", CInt 0); ("Q", CInt 8000)]).

Definition empty_book : workbook :=
  book [ ("Roster & Tables", empty_sheet); ("INVENTORY", empty_sheet);
         ("DEAL LOG", empty_sheet); ("MAIL TRACKING", empty_sheet) ].

Definition stored_event : json :=
  JDict [("id", JStr "evt-1"); ("name", JStr "Lincoln CDJR")].

#[export] Instance store_transport : Transport (list json) := store_send.
#[export] Instance failing_transport : Transport unit := failing_send.

(** ** Vocabulary of the statements *)

(** The value a coercion returns (it never raises, see [n_eq], [s_eq],
    [i_eq]). *)
Definition n_value (v : cell) : option float :=
  match n v with Ok o => o | Raise _ => None end.

Definition s_value (v : cell) : option string :=
  match s v with Ok o => o | Raise _ => None end.

Definition i_value (v : cell) : option Z :=
  match i v with Ok o => o | Raise _ => None end.

(** Every character of [t] satisfies [p]. *)
Fixpoint all_chars (p : ascii -> bool) (t : string) : bool :=
  match t with
  | EmptyString => true
  | String c r => p c && all_chars p r
  end.

Definition first_char_ok (p : ascii -> bool) (t : string) : Prop :=
  match t with
  | String c _ => p c = false
  | EmptyString => True
  end.

Definition last_char_ok (p : ascii -> bool) (t : string) : Prop :=
  forall u c, t = u ++ String c "" -> p c = false.

(** The sentinel names of the roster: absent, empty, or "none"/"spare" in
    any letter case. *)
Definition sentinel (name : option string) : Prop :=
  match name with
  | None => True
  | Some nm => nm = "" \/ PyStr.lower nm = "none" \/ PyStr.lower nm = "spare"
  end.

(** The status cell holds a non-empty text with "sold" in it, in any
    letter case. *)
Definition has_sold (raw : option string) : Prop :=
  exists t, raw = Some t /\ t <> "" /\ exists a b, PyStr.lower t = a ++ "sold" ++ b.

Definition tier_keys : list string :=
  ["cost_diff"; "price_115"; "profit_115"; "price_120"; "profit_120";
   "price_125"; "profit_125"; "price_130"; "profit_130"].

(** The pricing-tier fields of a record, for trade value [t] and cost [c]. *)
Definition tier_fields (t c : float) (item : dict) : Prop :=
  dict_get "cost_diff" item = Some (JFloat (PyFloat.round (t - c)%float 2)) /\
  forall m p, In (m, p) tiers ->
    let price := PyFloat.round (t * m)%float 2 in
    dict_get ("price_" ++ p) item = Some (JFloat price) /\
    dict_get ("profit_" ++ p) item = Some (JFloat (PyFloat.round (price - c)%float 2)).

Definition no_tier_fields (item : dict) : Prop :=
  forall k, In k tier_keys -> dict_get k item = None.

(** Every request sent by [m] satisfies [Q]; the trace only grows. *)
Definition sends {W A : Type} (Q : request -> Prop) (m : M W A) : Prop :=
  forall st, exists d, trace (fst (m st)) = (trace st ++ d)%list /\ Forall Q (sent d).

(** The record [rec] references the event [event_id]. *)
Definition has_event_id (event_id : json) (rec : json) : Prop :=
  getitem rec "event_id" = Ok event_id.

Definition carries (event_id : json) (r : request) : Prop :=
  Forall (has_event_id event_id) (records_of (req_json r)).

Definition not_child_write (r : request) : Prop := is_child_write r = false.

(** The request behind [event_query]. *)
Definition event_query_request : request :=
  rest_request GET "events" None [("select", "id,name"); ("limit", "1")].

(** The backend answers every request that reaches it. *)
Definition responsive {W : Type} `{Transport W} : Prop :=
  forall w r, exists w' resp, transmit w r = (w', Some resp).

(** [data] split into consecutive chunks, as the batch loop slices it. *)
Definition chunks (data : list json) : list (list json) :=
  map (fun idx => slice idx (idx + 20) data) (range_step (List.length data) 20).

(** ** Vocabulary of the further properties *)

(** [api("post", table, body)] as a request. *)
Definition write_request (table : string) (body : json) : request :=
  rest_request POST table (Some body) [].

(** The write of a stage that posts only a non-empty list. *)
Definition optional_write (table : string) (data : list json) : list request :=
  match data with
  | [] => []
  | _ => [write_request table (JList data)]
  end.

(** The writes of a batched stage. *)
Definition batch_writes (table : string) (data : list json) : list request :=
  map (fun c => write_request table (JList c)) (chunks data).

(** [m], run from [st], returns normally after sending exactly [reqs]. *)
Definition issues {W : Type} (m : M W unit) (st : state W) (reqs : list request) : Prop :=
  exists st' d, m st = (st', Ok tt) /\ trace st' = (trace st ++ d)%list /\ sent d = reqs.

(** The response-count fields of a mail-tracking record. *)
Definition count_keys : list string :=
  ["day1_responses"; "day2_responses"; "day3_responses"; "day4_responses";
   "day5_responses"; "day6_responses"; "day7_responses"; "total_responses"].

(** The calls that the script can make. *)
Inductive step : Type :=
| QueryEvents | QueryProfiles | CreateEvent | SqlInsert | OtherCall.

Definition classify (r : request) : step :=
  match req_method r with
  | GET =>
      if String.eqb (req_url r) (rest_url "events") then QueryEvents
      else if String.eqb (req_url r) (rest_url "profiles") then QueryProfiles
      else OtherCall
  | POST =>
      if String.eqb (req_url r) (rest_url "events") then CreateEvent
      else if String.eqb (req_url r) (req_url sql_request) then SqlInsert
      else OtherCall
  end.

(** The calls of the resolution, in the order the script makes them. *)
Definition resolution_order : list step :=
  [QueryEvents; QueryProfiles; CreateEvent; SqlInsert; QueryEvents].

Definition is_prefix {A : Type} (a b : list A) : Prop := exists c, b = (a ++ c)%list.

(** [m] makes the calls [L] when it returns, and a prefix of [L] when it
    raises. *)
Definition exactly {W A : Type} (L : list step) (m : M W A) : Prop :=
  forall st, exists d,
    trace (fst (m st)) = (trace st ++ d)%list /\
    match snd (m st) with
    | Ok _ => map classify (sent d) = L
    | Raise _ => is_prefix (map classify (sent d)) L
    end.

(** [m] makes a prefix of the calls [L]. *)
Definition within {W A : Type} (L : list step) (m : M W A) : Prop :=
  forall st, exists d,
    trace (fst (m st)) = (trace st ++ d)%list /\ is_prefix (map classify (sent d)) L.

(** The request for a creator reference. *)
Definition profiles_request : request :=
  rest_request GET "profiles" None [("select", "id"); ("limit", "1")].

(** The standard create call. *)
Definition create_request (data : dict) : request :=
  rest_request POST "events" (Some (JDict data)) [].

(** A response that accepts a write and returns no row. *)
Definition accepted : response :=
  {| status_code := 201; text := "[]"; parsed := Some (JList []) |}.

Definition answer (status : Z) (body : json) : response :=
  {| status_code := status; text := "[...]"; parsed := Some body |}.

(** A backend that plays a script: one scripted outcome per request, and
    [accepted] once the script is over. *)
Definition script_send (script : list (option response)) (r : request)
  : list (option response) * option response :=
  match script with
  | [] => ([], Some accepted)
  | x :: rest => (rest, x)
  end.

#[export] Instance script_transport : Transport (list (option response)) := script_send.


(** A vehicle with a retail value and a cost, and no trade value. *)
Definition retail_inventory : sheet :=
  rows_sheet 2 (cells [("G", CStr "Ram 1500"); ("P", CInt 12000); ("Q", CInt 8000)]).

(** The record of that vehicle. *)
Definition retail_item : dict :=
  match inventory_row retail_inventory (JInt 1) 2 with
  | Ok (Some (JDict d)) => d
  | _ => []
  end.

(** A workbook with the roster sheet only. *)
Definition roster_only_book : workbook := book [("Roster & Tables", sample_roster)].

(** The sample roster sheet with the text [nan] in the lender's rate
    cell, which [float] reads as a nan. *)
Definition nan_rate_roster : sheet :=
  {| max_row := 20;
     value := fun col row =>
       if row =? 2 then
         cells [("C", CStr "Jane Doe"); ("D", CStr "555-1212");
                ("I", CStr "Ally"); ("K", CStr "nan")] col
       else CNone |}.

Definition nan_rate_book : workbook :=
  book [ ("Roster & Tables", nan_rate_roster); ("INVENTORY", sample_inventory);
         ("DEAL LOG", sample_deals); ("MAIL TRACKING", sample_mail) ].

(** The write sequence of sections 2 to 7 for the given records. *)
Definition child_plan (event_id : json) (roster lenders inventory deals mail : list json)
  : list request :=
  ([write_request "roster" (JList roster)] ++ optional_write "lenders" lenders
   ++ batch_writes "vehicle_inventory" inventory ++ optional_write "deals_v2" deals
   ++ batch_writes "mail_tracking" mail
   ++ [write_request "event_config" (JDict (config event_id))])%list.

(** A normal return of [m] leaves the final line of the script as the
    last event of the trace. *)
Definition finishes {W : Type} (m : M W unit) : Prop :=
  forall st st', m st = (st', Ok tt) ->
    exists tr, trace st' = (tr ++ [Printed Complete])%list.

(** An event query answered with an event whose identifier is 0. *)
Definition zero_id_script : list (option response) :=
  [Some (answer 200 (JList [JDict [("id", JInt 0); ("name", JStr "draft")]]))].

(** No event, one profile, a create call that returns the new row. *)
Definition create_script : list (option response) :=
  [ Some (answer 200 (JList []));
    Some (answer 200 (JList [JDict [("id", JStr "user-1")]]));
    Some (answer 201 (JList [JDict [("id", JStr "evt-9")]])) ].

(** No event, no profile, a rejected create call, an SQL answer with the
    new identifier. *)
Definition fallback_script : list (option response) :=
  [ Some (answer 200 (JList []));
    Some (answer 200 (JList []));
    Some {| status_code := 400; text := "null value in column created_by"; parsed := None |};
    Some (answer 201 (JList [JList [JDict [("id", JStr "evt-7")]]])) ].

(** * The library model at work

    Values as the CPython interpreter computes them. *)

Example strip_example : PyStr.strip "  Bob  " = "Bob".
Proof. reflexivity. Qed.

Example lower_example : PyStr.lower "SpArE" = "spare".
Proof. reflexivity. Qed.

Example contains_example :
  PyStr.contains "sold" "presold" = true /\ PyStr.contains "sold" "so ld" = false.
Proof. split; reflexivity. Qed.

Example float_of_string_examples :
  PyFloat.of_string "42.9" = Ok 0x1.5733333333333p+5%float /\
  PyFloat.of_string " 1_000.5 " = Ok 1000.5%float /\
  PyFloat.of_string "1e999" = Ok infinity /\
  PyFloat.of_string "" = Raise ValueError /\
  PyFloat.of_string "12 units" = Raise ValueError.
Proof. repeat split; vm_compute; reflexivity. Qed.

Example int_of_float_examples :
  PyFloat.to_Z 0x1.5733333333333p+5 = Ok 42 /\
  PyFloat.to_Z (- 0x1.f333333333333p+1) = Ok (-3) /\
  PyFloat.to_Z nan = Raise ValueError /\
  PyFloat.to_Z infinity = Raise OverflowError.
Proof. repeat split; vm_compute; reflexivity. Qed.

Example round_examples :
  PyFloat.round 0x1.5666666666666p+1 2 = 0x1.55c28f5c28f5cp+1%float /\  (* round(2.675, 2) = 2.67 *)
  PyFloat.round 0.125 2 = 0x1.eb851eb851eb8p-4%float /\                (* round(0.125, 2) = 0.12 *)
  PyFloat.round 0.375 2 = 0x1.851eb851eb852p-2%float /\                (* round(0.375, 2) = 0.38 *)
  PyFloat.round infinity 2 = infinity.
Proof. repeat split; vm_compute; reflexivity. Qed.

Example repr_examples :
  PyFloat.repr 0x1.999999999999ap-4 = "0.1" /\
  PyFloat.repr 11500 = "11500.0" /\
  PyFloat.repr 0x1.1c37937e08000p+53 = "1e+16" /\
  PyFloat.repr 0x1.4f8b588e368f1p-17 = "1e-05".
Proof. repeat split; vm_compute; reflexivity. Qed.

Example truediv_examples :
  PyFloat.truediv 50 1000 = Ok 0x1.999999999999ap-5%float /\
  PyFloat.truediv 0 (-5) = Ok neg_zero /\
  PyFloat.truediv 1 0 = Raise ZeroDivisionError.
Proof. repeat split; vm_compute; reflexivity. Qed.

Example multipliers :
  map fst tiers =
  [0x1.2666666666666p+0; 0x1.3333333333333p+0; 1.25; 0x1.4cccccccccccdp+0]%float.
Proof. vm_compute. reflexivity. Qed.

(** * Facts about the string operations *)

Module PyStrFacts.
Import PyStr.

Lemma prefix_app (p t : string) :
  prefix p t = true <-> exists b, t = p ++ b.
Proof.
  revert t. induction p as [|c p IH]; intros t.
  - split; [intros _; now exists t | intros _; now destruct t].
  - destruct t as [|c' t]; simpl.
    + split; [discriminate | intros [b Hb]; discriminate].
    + destruct (ascii_dec c c') as [->|Hne].
      * rewrite IH. split; intros [b Hb]; exists b; [now subst | now inversion Hb].
      * split; [discriminate | intros [b Hb]; inversion Hb; congruence].
Qed.

Lemma contains_unfold (sub t : string) :
  contains sub t =
  prefix sub t || match t with EmptyString => false | String _ r => contains sub r end.
Proof.
  destruct t as [|c r]; simpl;
    [destruct (prefix sub "") | destruct (prefix sub (String c r))]; reflexivity.
Qed.

(** [sub in t] holds exactly when [t] has [sub] as a substring. *)
Lemma contains_spec (sub t : string) :
  contains sub t = true <-> exists a b, t = a ++ sub ++ b.
Proof.
  induction t as [|c r IH]; rewrite contains_unfold, orb_true_iff.
  - split.
    + intros [Hp|Hf]; [|discriminate]. apply prefix_app in Hp as [b Hb].
      now exists "", b.
    + intros (a & b & Hab). left. apply prefix_app.
      destruct a; [now exists b | discriminate].
  - rewrite IH, prefix_app. split.
    + intros [[b Hb]|(a & b & Hab)]; [now exists "", b|].
      exists (String c a), b. simpl. now rewrite Hab.
    + intros (a & b & Hab). destruct a as [|c' a].
      * left. now exists b.
      * right. exists a, b. simpl in Hab. now inversion Hab.
Qed.

Lemma lstrip_by_spec (p : ascii -> bool) (t : string) :
  exists a, t = a ++ lstrip_by p t /\ all_chars p a = true
            /\ first_char_ok p (lstrip_by p t).
Proof.
  induction t as [|c r (a & Ha & Hall & Hfirst)]; simpl.
  - now exists "".
  - destruct (p c) eqn:Hc.
    + exists (String c a). simpl. rewrite Hc, Hall. split; [now rewrite <- Ha | auto].
    + exists "". simpl. auto.
Qed.

Lemma rstrip_by_spec (p : ascii -> bool) (t : string) :
  exists b, t = rstrip_by p t ++ b /\ all_chars p b = true
            /\ last_char_ok p (rstrip_by p t).
Proof.
  induction t as [|c r (b & Hb & Hall & Hlast)]; simpl.
  - exists "". repeat split. intros [|? ?] ? ?; discriminate.
  - destruct (rstrip_by p r) as [|c' r'] eqn:Hr.
    + destruct (p c) eqn:Hc.
      * exists (String c r). simpl in Hb. subst b. simpl. rewrite Hc, Hall.
        repeat split. intros [|? ?] ? ?; discriminate.
      * exists b. simpl in Hb. subst b. repeat split; auto.
        intros [|? [|? ?]] c0 E; inversion E; subst; auto.
    + exists b. simpl in *. split; [congruence|]. split; [assumption|].
      intros [|c1 u] c0 E; [discriminate|].
      inversion E; subst. eapply Hlast. eassumption.
Qed.

Lemma rstrip_by_first (p : ascii -> bool) (t : string) :
  first_char_ok p t -> first_char_ok p (rstrip_by p t).
Proof.
  destruct t as [|c r]; simpl; auto.
  intros Hc. destruct (rstrip_by p r); [rewrite Hc|]; exact Hc.
Qed.

(** [strip] removes a run of whitespace at each end, and nothing else. *)
Lemma strip_spec (t : string) :
  exists a b, t = a ++ strip t ++ b
              /\ all_chars isspace a = true /\ all_chars isspace b = true
              /\ first_char_ok isspace (strip t) /\ last_char_ok isspace (strip t).
Proof.
  unfold strip, strip_by.
  destruct (lstrip_by_spec isspace t) as (a & Ha & Halla & Hfirst).
  destruct (rstrip_by_spec isspace (lstrip_by isspace t)) as (b & Hb & Hallb & Hlast).
  exists a, b. repeat split; auto.
  - now rewrite <- Hb.
  - now apply rstrip_by_first.
Qed.

Lemma take_prefix (k : nat) (t : string) :
  exists rest, t = take k t ++ rest /\ (length (take k t) <= k)%nat.
Proof.
  unfold take. revert t. induction k as [|k IH]; intros t.
  - exists t. destruct t; simpl; auto.
  - destruct t as [|c r]; simpl.
    + exists "". auto with arith.
    + destruct (IH r) as (rest & Hr & Hlen). exists rest.
      split; [now rewrite <- Hr | lia].
Qed.

End PyStrFacts.

(** * Facts about the coercions *)

Lemma n_eq (v : cell) : n v = Ok (n_value v).
Proof.
  unfold n_value, n, try_except, rbind.
  destruct v; try reflexivity; simpl; destruct (PyFloat.of_string _) || destruct (PyFloat.of_Z _); reflexivity.
Qed.

Lemma s_eq (v : cell) : s v = Ok (s_value v).
Proof. destruct v; reflexivity. Qed.

Lemma i_eq (v : cell) : i v = Ok (i_value v).
Proof.
  unfold i_value, i, try_except, rbind.
  destruct v; try reflexivity; simpl.
  - destruct (PyFloat.of_string t); [destruct (PyFloat.to_Z a)|]; reflexivity.
  - destruct (PyFloat.of_Z z); [destruct (PyFloat.to_Z a)|]; reflexivity.
  - destruct (PyFloat.to_Z x); reflexivity.
  - destruct (PyFloat.to_Z _); reflexivity.
Qed.

Lemma try_some {A : Type} (r : result A) (a : A) :
  try_except (let* x := r in Ok (Some x)) (Ok None) = Ok (Some a) <-> r = Ok a.
Proof.
  destruct r as [a'|e]; simpl; split; intros E; inversion E; reflexivity.
Qed.

Lemma rbind_ok {A B : Type} (r : result A) (k : A -> result B) (b : B) :
  rbind r k = Ok b <-> exists a, r = Ok a /\ k a = Ok b.
Proof.
  destruct r as [a|e]; simpl; split.
  - intros E. now exists a.
  - intros (a' & E & Hk). now inversion E.
  - discriminate.
  - intros (a' & E & _). discriminate.
Qed.

Lemma rbind_assoc {A B C : Type} (r : result A) (f : A -> result B) (g : B -> result C) :
  rbind (rbind r f) g = rbind r (fun a => rbind (f a) g).
Proof. destruct r; reflexivity. Qed.

Lemma n_some (v : cell) (x : float) :
  n v = Ok (Some x) <-> v <> CNone /\ py_float v = Ok x.
Proof.
  destruct v; unfold n; rewrite ?try_some.
  1: split; [discriminate | intros [E _]; congruence].
  all: split; [intros E; split; [discriminate | exact E] | intros [_ E]; exact E].
Qed.

Lemma i_some (v : cell) (z : Z) :
  i v = Ok (Some z) <->
  v <> CNone /\ exists x, py_float v = Ok x /\ PyFloat.to_Z x = Ok z.
Proof.
  assert (Hi : i v = try_except
                       (let* z := (let* x := py_float v in PyFloat.to_Z x) in Ok (Some z))
                       (Ok None))
    by (rewrite rbind_assoc; destruct v; reflexivity).
  destruct v.
  1: split; [discriminate | intros [E _]; congruence].
  all: rewrite Hi, try_some, rbind_ok;
    split; [intros E; split; [discriminate | exact E] | intros [_ E]; exact E].
Qed.

(** * Records built by the extractors *)

Lemma dict_get_set_same (k : string) (v : json) (d : dict) :
  dict_get k (dict_set k v d) = Some v.
Proof.
  induction d as [|[k' v'] r IH]; simpl.
  - now rewrite String.eqb_refl.
  - destruct (String.eqb k k') eqn:E; simpl; rewrite E; auto.
Qed.

Lemma dict_get_set_other (k k' : string) (v : json) (d : dict) :
  String.eqb k k' = false -> dict_get k (dict_set k' v d) = dict_get k d.
Proof.
  intros Hk. induction d as [|[k0 v0] r IH]; simpl.
  - now rewrite Hk.
  - destruct (String.eqb k' k0) eqn:E; simpl.
    + apply String.eqb_eq in E. subst k0. now rewrite Hk.
    + now rewrite IH.
Qed.

Lemma str_in_spec (x : string) (l : list string) :
  str_in x l = true <-> In x l.
Proof.
  unfold str_in. rewrite existsb_exists. split.
  - intros (y & Hy & E). apply String.eqb_eq in E. now subst.
  - intros Hx. exists x. split; [assumption | apply String.eqb_refl].
Qed.

Lemma str_truthy_spec (o : option string) :
  str_truthy o = true <-> exists t, o = Some t /\ t <> "".
Proof.
  destruct o as [t|]; simpl.
  - rewrite negb_true_iff. split.
    + intros E. exists t. split; [reflexivity|]. intros ->. discriminate.
    + intros (t' & E & Hne). inversion E; subst. now apply String.eqb_neq.
  - split; [discriminate | intros (t & E & _); discriminate].
Qed.

Lemma lit_quarter : lit "0.25" = 0.25%float.
Proof. vm_compute. reflexivity. Qed.

(** C6: a roster row is left out when its name is absent, empty, or
    "none" or "spare" in any letter case, whatever its other cells hold;
    every other row yields a record whose role comes from the name-to-role
    table with default "sales", with [confirmed = true] and a commission
    percentage of 0.25. *)
Theorem roster_row_spec (ws : sheet) (event_id : json) (row : Z)
    (name phone : option string) :
  s (value ws "C" row) = Ok name ->
  s (value ws "D" row) = Ok phone ->
  (sentinel name -> roster_row ws event_id row = Ok None) /\
  (~ sentinel name ->
   exists nm, name = Some nm /\
     roster_row ws event_id row =
     Ok (Some (JDict
       [ ("event_id", event_id);
         ("name", JStr nm);
         ("phone", of_str phone);
         ("role", JStr (map_get nm roles_map "sales"));
         ("confirmed", JBool true);
         ("commission_pct", JFloat 0.25) ]))).
Proof.
  intros Hname Hphone. unfold roster_row. rewrite Hname, Hphone. cbn [rbind].
  destruct name as [nm|]; [|split; [reflexivity | intros Hs; now destruct Hs]].
  destruct (str_in (PyStr.lower nm) ["none"; "spare"]) eqn:Hin.
  - rewrite orb_true_r. split; [reflexivity|].
    intros Hs. exfalso. apply Hs. apply str_in_spec in Hin.
    simpl in *. intuition auto.
  - rewrite orb_false_r. simpl str_truthy. rewrite negb_involutive.
    destruct (String.eqb nm "") eqn:Hnm.
    + split; [reflexivity|]. intros Hs. exfalso. apply Hs. left. now apply String.eqb_eq.
    + split.
      * intros [E|Hs]; [apply String.eqb_neq in Hnm; contradiction|].
        assert (Hc : str_in (PyStr.lower nm) ["none"; "spare"] = true)
          by (apply str_in_spec; simpl; intuition auto).
        congruence.
      * intros _. exists nm. split; [reflexivity|]. now rewrite lit_quarter.
Qed.

Lemma roster_none_excluded :
  roster_row (rows_sheet 20 (cells [("C", CStr " NoNe "); ("D", CStr "555-1212")])) (JInt 1) 2 = Ok None.
Proof. reflexivity. Qed.

Lemma sold_status_sold (raw : option string) :
  sold_status raw = "sold" <-> has_sold raw.
Proof.
  unfold sold_status, has_sold. destruct raw as [t|].
  - destruct (str_truthy (Some t) && PyStr.contains "sold" (PyStr.lower t)) eqn:E.
    + apply andb_true_iff in E as [Ht Hc].
      apply str_truthy_spec in Ht as (t' & E & Hne). inversion E; subst t'.
      apply PyStrFacts.contains_spec in Hc. split; [|reflexivity].
      intros _. exists t. auto.
    + split; [discriminate|]. intros (t' & E' & Hne & Hc). inversion E'; subst t'.
      apply PyStrFacts.contains_spec in Hc.
      assert (Ht : str_truthy (Some t) = true) by (apply str_truthy_spec; eauto).
      rewrite Ht, Hc in E. discriminate.
  - split; [discriminate | intros (t & E & _); discriminate].
Qed.

Lemma sold_status_cases (raw : option string) :
  sold_status raw = "sold" \/ sold_status raw = "available".
Proof.
  unfold sold_status. destruct raw as [t|]; [|now right].
  destruct (_ && _); auto.
Qed.

Ltac coerce_in H :=
  rewrite ?n_eq, ?s_eq, ?i_eq in H; cbn [rbind] in H.
Ltac coerce := rewrite ?n_eq, ?s_eq, ?i_eq; cbn [rbind].

Ltac get_other := repeat (rewrite dict_get_set_other by reflexivity).

Lemma retail_spread_other (k : string) (R C : option float) (item : dict) :
  String.eqb k "retail_spread" = false ->
  dict_get k (retail_spread R C item) = dict_get k item.
Proof.
  intros Hk. unfold retail_spread.
  destruct R as [r|], C as [c|]; try reflexivity.
  destruct (_ && _); [now apply dict_get_set_other | reflexivity].
Qed.

Lemma pricing_unfold (t c : float) (item : dict) :
  float_truthy (Some t) && float_truthy (Some c) = true ->
  pricing (Some t) (Some c) item =
  add_tiers tiers t c (dict_set "cost_diff" (JFloat (PyFloat.round (t - c)%float 2)) item).
Proof. intros E. unfold pricing. now rewrite E. Qed.

Lemma pricing_skip (T C : option float) (item : dict) :
  float_truthy T && float_truthy C = false -> pricing T C item = item.
Proof.
  intros E. unfold pricing. destruct T, C; try reflexivity. now rewrite E.
Qed.

Lemma pricing_other (k : string) (T C : option float) (item : dict) :
  existsb (String.eqb k) tier_keys = false ->
  dict_get k (pricing T C item) = dict_get k item.
Proof.
  intros Hk. cbn [existsb tier_keys] in Hk.
  repeat (apply orb_false_iff in Hk as [? Hk]).
  destruct (float_truthy T && float_truthy C) eqn:E.
  - destruct T as [t|], C as [c|]; try discriminate;
      try (rewrite andb_false_r in E; discriminate).
    rewrite pricing_unfold by assumption.
    unfold tiers. cbn [add_tiers append].
    repeat (rewrite dict_get_set_other by assumption). reflexivity.
  - now rewrite pricing_skip.
Qed.

Lemma pricing_fields (t c : float) (item : dict) :
  float_truthy (Some t) && float_truthy (Some c) = true ->
  tier_fields t c (pricing (Some t) (Some c) item).
Proof.
  intros E. rewrite pricing_unfold by assumption.
  unfold tier_fields, tiers. cbn [add_tiers append]. split.
  - get_other. apply dict_get_set_same.
  - intros m p Hin. cbn [In] in Hin.
    repeat (destruct Hin as [Hin|Hin]; [injection Hin as <- <-|]); try contradiction;
      cbn [append]; split; get_other; apply dict_get_set_same.
Qed.

Ltac in_cases H :=
  cbn [In] in H; repeat (destruct H as [H|H]; [subst|]); try contradiction.

(** C10: in the record of an included inventory row, [sold_status] is
    "sold" exactly when the status cell (column C) coerces to a non-empty
    text containing "sold" in any letter case, and "available" in every
    other case, an absent or empty cell included. *)
Theorem sold_status_spec (ws : sheet) (event_id : json) (row : Z)
    (item : dict) (raw : option string) :
  inventory_row ws event_id row = Ok (Some (JDict item)) ->
  s (value ws "C" row) = Ok raw ->
  (has_sold raw -> dict_get "sold_status" item = Some (JStr "sold")) /\
  (~ has_sold raw -> dict_get "sold_status" item = Some (JStr "available")).
Proof.
  intros Hrow Hraw. unfold inventory_row in Hrow. rewrite Hraw in Hrow.
  coerce_in Hrow. destruct (_ && _) in Hrow; [discriminate|].
  injection Hrow as <-.
  rewrite retail_spread_other, pricing_other by reflexivity.
  cbn [dict_get String.eqb Ascii.eqb Bool.eqb].
  rewrite <- sold_status_sold.
  destruct (sold_status_cases raw) as [E|E]; rewrite E; split; auto.
  - intros Hn. congruence.
  - discriminate.
Qed.

Lemma tier_fields_retail (t c : float) (R C : option float) (item : dict) :
  tier_fields t c item -> tier_fields t c (retail_spread R C item).
Proof.
  intros [Hd Hp]. split.
  - now rewrite retail_spread_other.
  - intros m p Hin. specialize (Hp m p Hin). cbn zeta in Hp |- *.
    unfold tiers in Hin. cbn [In] in Hin.
    repeat (destruct Hin as [Hin|Hin]; [injection Hin as <- <-|]); try contradiction;
      rewrite !retail_spread_other by reflexivity; exact Hp.
Qed.

Lemma no_tier_fields_retail (R C : option float) (item : dict) :
  no_tier_fields item -> no_tier_fields (retail_spread R C item).
Proof.
  intros Hno k Hk. specialize (Hno k Hk).
  in_cases Hk; now rewrite retail_spread_other.
Qed.

Lemma no_tier_fields_skip (T C R : option float) (base : dict) :
  float_truthy T && float_truthy C = false ->
  no_tier_fields base ->
  no_tier_fields (retail_spread R C (pricing T C base)).
Proof.
  intros E Hbase. rewrite pricing_skip by assumption.
  now apply no_tier_fields_retail.
Qed.

(** C3 (as amended): for the record of an included inventory row with
    coerced trade value [T] and unit cost [C]: when both are present and
    non-zero, the record holds [cost_diff = round(T - C, 2)] and, for each
    multiplier [m] of 1.15, 1.20, 1.25, 1.30, [price = round(T*m, 2)] and
    [profit = round(price - C, 2)]; when either is absent or zero, the
    record holds none of the pricing-tier fields.  Trade 10000 with cost
    8000 gives, in the 1.15 tier, price 11500.0 and profit 3500.0. *)
Theorem pricing_tiers_spec (ws : sheet) (event_id : json) (row : Z)
    (item : dict) (T C : option float) :
  inventory_row ws event_id row = Ok (Some (JDict item)) ->
  n (value ws "O" row) = Ok T ->
  n (value ws "Q" row) = Ok C ->
  match T, C with
  | Some t, Some c =>
      if negb (is_zero t) && negb (is_zero c) then tier_fields t c item
      else no_tier_fields item
  | _, _ => no_tier_fields item
  end /\
  (let priced := pricing (Some 10000%float) (Some 8000%float) [] in
   dict_get "price_115" priced = Some (JFloat 11500) /\
   dict_get "profit_115" priced = Some (JFloat 3500)).
Proof.
  intros Hrow HT HC. split; [|split; vm_compute; reflexivity].
  unfold inventory_row in Hrow. rewrite HT, HC in Hrow.
  coerce_in Hrow. destruct (_ && _) in Hrow; [discriminate|].
  injection Hrow as <-.
  destruct T as [t|], C as [c|].
  - change (negb (is_zero t) && negb (is_zero c))
      with (float_truthy (Some t) && float_truthy (Some c)).
    destruct (float_truthy (Some t) && float_truthy (Some c)) eqn:E.
    + now apply tier_fields_retail, pricing_fields.
    + apply no_tier_fields_skip; [assumption|]. intros k Hk. in_cases Hk; reflexivity.
  - apply no_tier_fields_skip; [apply andb_false_r|]. intros k Hk. in_cases Hk; reflexivity.
  - apply no_tier_fields_skip; [reflexivity|]. intros k Hk. in_cases Hk; reflexivity.
  - apply no_tier_fields_skip; [reflexivity|]. intros k Hk. in_cases Hk; reflexivity.
Qed.

(** * Float bounds and the response rate *)

Module PyFloatFacts.
Import PyFloat.

Lemma digits2_pos_bound (m : positive) : Zpos m < 2 ^ Zpos (digits2_pos m).
Proof.
  induction m as [m IH|m IH|]; simpl digits2_pos;
    rewrite ?Pos2Z.inj_succ, ?Z.pow_succ_r by lia; lia.
Qed.

Lemma overflow_bound_pos : 0 < overflow_bound.
Proof. reflexivity. Qed.

(** A finite float truncates to an integer of magnitude below
    [overflow_bound]. *)
Lemma to_Z_bound (x : float) (z : Z) :
  to_Z x = Ok z -> Z.abs z < overflow_bound.
Proof.
  unfold to_Z. pose proof (Prim2SF_valid x) as Hv.
  destruct (Prim2SF x) as [sg|sg| |sg m e]; try discriminate.
  - intros E. injection E as <-. exact overflow_bound_pos.
  - intros E. injection E as <-.
    cbn [valid_binary] in Hv. unfold bounded, canonical_mantissa in Hv.
    apply andb_true_iff in Hv as [Hc He].
    apply Z.eqb_eq in Hc. apply Z.leb_le in He.
    unfold fexp, SpecFloat.emin in Hc.
    change emax with 1024 in *. change prec with 53 in *.
    pose proof (digits2_pos_bound m) as Hm.
    assert (Hd : Zpos (digits2_pos m) <= 53) by lia.
    assert (Hm53 : Zpos m <= 2 ^ 53 - 1).
    { pose proof (Z.pow_le_mono_r 2 (Zpos (digits2_pos m)) 53 ltac:(lia) Hd). lia. }
    assert (Ha : 0 <= (if 0 <=? e then Zpos m * 2 ^ e else Zpos m / 2 ^ (- e))
                 <= (2 ^ 53 - 1) * 2 ^ 971).
    { destruct (0 <=? e) eqn:Hs.
      - apply Z.leb_le in Hs.
        pose proof (Z.pow_le_mono_r 2 e 971 ltac:(lia) ltac:(lia)) as Hp.
        assert (0 < 2 ^ e) by (apply Z.pow_pos_nonneg; lia).
        split; [lia|]. apply Z.mul_le_mono_nonneg; lia.
      - apply Z.leb_gt in Hs.
        assert (Hp : 0 < 2 ^ (- e)) by (apply Z.pow_pos_nonneg; lia).
        split; [apply Z.div_pos; lia|].
        assert (Zpos m / 2 ^ (- e) <= Zpos m) by (apply Z.div_le_upper_bound; nia).
        assert ((2 ^ 53 - 1) * 1 <= (2 ^ 53 - 1) * 2 ^ 971)
          by (apply Z.mul_le_mono_nonneg_l; [lia | reflexivity || (apply Z.lt_le_incl; reflexivity) ]).
        lia. }
    assert (Hb : (2 ^ 53 - 1) * 2 ^ 971 < overflow_bound) by reflexivity.
    set (a := if 0 <=? e then Zpos m * 2 ^ e else Zpos m / 2 ^ (- e)) in *.
    set (top := (2 ^ 53 - 1) * 2 ^ 971) in *.
    change (Z.abs (if sg then - a else a) < overflow_bound).
    destruct sg; lia.
Qed.

Lemma truediv_no_overflow (a b : Z) :
  b <> 0 -> Z.abs a < overflow_bound -> exists q, truediv a b = Ok q.
Proof.
  intros Hb Ha. unfold truediv.
  destruct b as [|b|b]; [congruence| |]; (destruct a as [|a|a]; [eexists; reflexivity| |]).
  all: match goal with
       | |- context [?l <=? ?r] => destruct (Z.leb_spec l r) as [Hle|Hlt]
       end; [exfalso | eexists; reflexivity].
  all: pose proof overflow_bound_pos; nia.
Qed.

Lemma truediv_zero_division (a b : Z) :
  truediv a b = Raise ZeroDivisionError <-> b = 0.
Proof.
  unfold truediv. destruct b; [tauto| |];
    (split; [|discriminate]); destruct a; try discriminate;
    destruct (_ <=? _); discriminate.
Qed.

End PyFloatFacts.

Lemma i_bound (v : cell) (z : Z) :
  i v = Ok (Some z) -> Z.abs z < PyFloat.overflow_bound.
Proof.
  intros E. apply i_some in E as [_ (x & _ & Hz)].
  eapply PyFloatFacts.to_Z_bound; eassumption.
Qed.

Lemma int_truthy_spec (o : option Z) :
  int_truthy o = true <-> exists z, o = Some z /\ z <> 0.
Proof.
  destruct o as [z|]; simpl.
  - rewrite negb_true_iff, Z.eqb_neq. split; [eauto|].
    intros (z' & E & Hz). now inversion E; subst.
  - split; [discriminate | intros (z & E & _); discriminate].
Qed.

(** The rate expression never divides by zero. *)
Lemma response_rate_no_zero_division (pieces total_resp : option Z) :
  response_rate pieces total_resp <> Raise ZeroDivisionError.
Proof.
  unfold response_rate. destruct pieces as [p|], total_resp as [t|]; try discriminate.
  destruct (int_truthy (Some p) && int_truthy (Some t)) eqn:E; [|discriminate].
  apply andb_true_iff in E as [Hp _].
  apply int_truthy_spec in Hp as (p' & Ep & Hp). inversion Ep; subst p'.
  intros Hr. destruct (PyFloat.truediv t p) as [q|e] eqn:Hq; [discriminate|].
  simpl in Hr. inversion Hr; subst e.
  apply PyFloatFacts.truediv_zero_division in Hq. contradiction.
Qed.

Lemma response_rate_total (vp vt : cell) (pieces total_resp : option Z) :
  i vp = Ok pieces -> i vt = Ok total_resp ->
  exists rate, response_rate pieces total_resp = Ok rate.
Proof.
  intros Hp Ht. unfold response_rate.
  destruct pieces as [p|], total_resp as [t|]; try (eexists; reflexivity).
  destruct (int_truthy (Some p) && int_truthy (Some t)) eqn:E; [|eexists; reflexivity].
  apply andb_true_iff in E as [Hpz _].
  apply int_truthy_spec in Hpz as (p' & Ep & Hpz). inversion Ep; subst p'.
  destruct (PyFloatFacts.truediv_no_overflow t p Hpz (i_bound _ _ Ht)) as [q Hq].
  rewrite Hq. eexists; reflexivity.
Qed.

(** C5: the rate expression never divides by zero.  A mail-tracking row
    with a zip code and a town yields a record, and the [response_rate]
    of that record is [round(total_resp / pieces, 4)] when pieces sent
    and total responses are both present and non-zero, and [0]
    otherwise; a row without a zip code or a town yields no record.
    Pieces 1000 with 50 responses give 0.05, pieces 0 or absent
    responses give 0. *)
Theorem response_rate_spec (ws : sheet) (event_id : json) (row : Z)
    (zip_code town : option string) (pieces total_resp : option Z) :
  s (value ws "E" row) = Ok zip_code ->
  s (value ws "D" row) = Ok town ->
  i (value ws "B" row) = Ok pieces ->
  i (value ws "F" row) = Ok total_resp ->
  response_rate pieces total_resp <> Raise ZeroDivisionError /\
  (if str_truthy zip_code && str_truthy town
   then
     exists item, mail_row ws event_id row = Ok (Some (JDict item)) /\
       match pieces, total_resp with
       | Some p, Some t =>
           if negb (p =? 0) && negb (t =? 0) then
             exists q, PyFloat.truediv t p = Ok q /\
               dict_get "response_rate" item = Some (JFloat (PyFloat.round q 4))
           else dict_get "response_rate" item = Some (JInt 0)
       | _, _ => dict_get "response_rate" item = Some (JInt 0)
       end
   else mail_row ws event_id row = Ok None) /\
  (response_rate (Some 1000) (Some 50) = Ok (JFloat (lit "0.05")) /\
   response_rate (Some 0) (Some 50) = Ok (JInt 0) /\
   response_rate (Some 1000) None = Ok (JInt 0)).
Proof.
  intros Hz Hw Hp Ht. split; [apply response_rate_no_zero_division|].
  split; [|repeat split; vm_compute; reflexivity].
  destruct (response_rate_total _ _ _ _ Hp Ht) as [rate Hrate].
  unfold mail_row. rewrite Hz, Hw. cbn [rbind].
  destruct (str_truthy zip_code); [|reflexivity].
  destruct (str_truthy town); [|reflexivity].
  cbn [negb orb andb]. rewrite Hp, Ht. coerce.
  rewrite Hrate. cbn [rbind].
  eexists; split; [reflexivity|].
  cbn [dict_get String.eqb Ascii.eqb Bool.eqb].
  unfold response_rate in Hrate.
  destruct pieces as [p|], total_resp as [t|]; try (now inversion Hrate).
  change (negb (p =? 0) && negb (t =? 0))
    with (int_truthy (Some p) && int_truthy (Some t)).
  destruct (int_truthy (Some p) && int_truthy (Some t)); [|now inversion Hrate].
  destruct (PyFloat.truediv t p) as [q|e]; [|discriminate].
  exists q. split; [reflexivity|]. now inversion Hrate.
Qed.

(** * The trace of a computation *)

Section TraceFacts.
Context {W : Type} `{Transport W}.

Lemma sent_app (d1 d2 : list event) : sent (d1 ++ d2) = (sent d1 ++ sent d2)%list.
Proof. apply flat_map_app. Qed.

Lemma child_writes_app (d1 d2 : list event) :
  child_writes (d1 ++ d2) = (child_writes d1 ++ child_writes d2)%list.
Proof. unfold child_writes. now rewrite sent_app, filter_app. Qed.

Lemma sends_ret {A : Type} (Q : request -> Prop) (a : A) : sends Q (ret (W := W) a).
Proof. intros st. exists []. split; [now rewrite app_nil_r | constructor]. Qed.

Lemma sends_raise {A : Type} (Q : request -> Prop) (e : exn) :
  sends Q (raise (W := W) (A := A) e).
Proof. intros st. exists []. split; [now rewrite app_nil_r | constructor]. Qed.

Lemma sends_lift {A : Type} (Q : request -> Prop) (r : result A) :
  sends Q (lift (W := W) r).
Proof. intros st. exists []. split; [now rewrite app_nil_r | constructor]. Qed.

Lemma sends_print (Q : request -> Prop) (l : line) : sends Q (print (W := W) l).
Proof. intros st. exists [Printed l]. split; [reflexivity | constructor]. Qed.

(** An answered call went out and returns the answer. *)
Lemma http_ok (r : request) (st : state W) (w' : W) (resp : response) :
  send (world st) r = (w', Some resp) ->
  http r st = ({| world := w'; trace := trace st ++ [Sent r] |}, Ok resp).
Proof.
  unfold send, http. destruct (serialisable r); [|discriminate].
  intros Hs. now rewrite Hs.
Qed.

(** A call goes out and is answered, goes out and is not, or fails on its
    payload without going out. *)
Lemma http_cases (r : request) (st : state W) :
  (exists w' resp, serialisable r = true /\
     http r st = ({| world := w'; trace := trace st ++ [Sent r] |}, Ok resp)) \/
  (exists w', serialisable r = true /\
     http r st = ({| world := w'; trace := trace st ++ [Sent r] |}, Raise RequestException)) \/
  (serialisable r = false /\ http r st = (st, Raise InvalidJSONError)).
Proof.
  unfold http. destruct (serialisable r); [|now right; right].
  destruct (transmit (world st) r) as [w' [resp|]]; [left | right; left]; eauto.
Qed.

(** A call that fails on its payload leaves the state as it was. *)
Lemma http_unsent (r : request) (st : state W) :
  serialisable r = false -> http r st = (st, Raise InvalidJSONError).
Proof. intros Hs. unfold http. now rewrite Hs. Qed.

Lemma sends_http (Q : request -> Prop) (r : request) : Q r -> sends Q (http r).
Proof.
  intros HQ st.
  destruct (http_cases r st) as [(w' & resp & _ & E)|[(w' & _ & E)|[_ E]]]; rewrite E.
  - exists [Sent r]. split; [reflexivity | now repeat constructor].
  - exists [Sent r]. split; [reflexivity | now repeat constructor].
  - exists []. split; [now rewrite app_nil_r | constructor].
Qed.

Lemma sends_bind {A B : Type} (Q : request -> Prop) (m : M W A) (k : A -> M W B) :
  sends Q m ->
  (forall st st' a, m st = (st', Ok a) -> sends Q (k a)) ->
  sends Q (bind m k).
Proof.
  intros Hm Hk st. unfold bind. destruct (Hm st) as (d1 & Hd1 & HQ1).
  destruct (m st) as [st' [a|e]] eqn:E; simpl in Hd1.
  - destruct (Hk st st' a E st') as (d2 & Hd2 & HQ2).
    exists (d1 ++ d2)%list. rewrite Hd2, Hd1, app_assoc, sent_app.
    split; [reflexivity | now apply Forall_app].
  - exists d1. now split.
Qed.

Lemma sends_bind_lift {A B : Type} (Q : request -> Prop) (r : result A) (k : A -> M W B) :
  (forall a, r = Ok a -> sends Q (k a)) -> sends Q (bind (lift r) k).
Proof.
  intros Hk. apply sends_bind; [apply sends_lift|].
  intros st st' a E. apply Hk. unfold lift in E. now inversion E.
Qed.

Lemma sends_seq {A B : Type} (Q : request -> Prop) (m : M W A) (k : M W B) :
  sends Q m -> sends Q k -> sends Q (bind m (fun _ => k)).
Proof. intros Hm Hk. apply sends_bind; auto. Qed.

Lemma sends_api (Q : request -> Prop) (m : method) (table : string)
    (data : option json) (params : list (string * string)) :
  Q (rest_request m table data params) -> sends Q (api m table data params).
Proof.
  intros HQ. unfold api. apply sends_bind; [now apply sends_http|].
  intros _ _ r _. destruct (400 <=? status_code r).
  - apply sends_seq; [apply sends_print | apply sends_ret].
  - apply sends_ret.
Qed.

Lemma sends_post (Q : request -> Prop) (table : string) (data : json) :
  Q (rest_request POST table (Some data) []) -> sends Q (post table data).
Proof. intros HQ. apply sends_seq; [now apply sends_api | apply sends_ret]. Qed.

Lemma sends_for_each {A : Type} (Q : request -> Prop) (l : list A) (body : A -> M W unit) :
  (forall x, In x l -> sends Q (body x)) -> sends Q (for_each l body).
Proof.
  induction l as [|x l IH]; intros Hb; simpl.
  - apply sends_ret.
  - apply sends_seq; [apply Hb; now left | apply IH; intros y Hy; apply Hb; now right].
Qed.

End TraceFacts.

Lemma collect_forall (P : json -> Prop) (rows : list Z) (body : Z -> result (option json))
    (l : list json) :
  (forall r rec, body r = Ok (Some rec) -> P rec) ->
  collect rows body = Ok l -> Forall P l.
Proof.
  intros Hb. revert l. induction rows as [|r rows IH]; intros l; simpl.
  - intros E. injection E as <-. constructor.
  - destruct (body r) as [o|e] eqn:Er; [|discriminate]. cbn [rbind].
    destruct (collect rows body) as [acc|e]; [|discriminate]. cbn [rbind].
    intros E. injection E as <-.
    destruct o as [rec|]; [constructor; eauto | auto].
Qed.

(** What the row loop collects when its body never raises. *)
Lemma collect_total (rows : list Z) (body : Z -> result (option json))
    (f : Z -> option json) :
  (forall r, body r = Ok (f r)) ->
  collect rows body =
  Ok (flat_map (fun r => match f r with Some rec => [rec] | None => [] end) rows).
Proof.
  intros Hb. induction rows as [|r rows IH]; simpl; [reflexivity|].
  rewrite Hb, IH. cbn [rbind]. now destruct (f r).
Qed.

(** The roster payload: the records of the qualifying rows 2 to 17, in
    row order. *)
Lemma roster_rows_collected (ws : sheet) (event_id : json) :
  collect (range 2 18) (roster_row ws event_id) =
  Ok (flat_map (fun r => match roster_row ws event_id r with
                         | Ok (Some rec) => [rec]
                         | _ => []
                         end) (range 2 18)).
Proof.
  rewrite (collect_total _ _
             (fun r => match roster_row ws event_id r with Ok o => o | Raise _ => None end)).
  - f_equal. apply flat_map_ext. intros r.
    destruct (roster_row ws event_id r) as [[rec|]|e]; reflexivity.
  - intros r. unfold roster_row. rewrite !s_eq. cbn [rbind].
    destruct (s_value (value ws "C" r)) as [nm|]; [|reflexivity].
    destruct (_ || _); reflexivity.
Qed.

Lemma In_slice {A : Type} (a b : nat) (l : list A) (x : A) :
  In x (slice a b l) -> In x l.
Proof.
  unfold slice. intros Hx.
  rewrite <- (firstn_skipn a l). apply in_or_app. right.
  rewrite <- (firstn_skipn (b - a) (skipn a l)). apply in_or_app. now left.
Qed.

Ltac row_inv H :=
  coerce_in H;
  repeat match type of H with
         | (if ?b then _ else _) = _ => destruct b; [discriminate|]
         | match ?o with Some _ => _ | None => _ end = _ => destruct o; [|discriminate]
         end;
  try (injection H as <-).

Lemma roster_row_event_id (ws : sheet) (event_id : json) (row : Z) (rec : json) :
  roster_row ws event_id row = Ok (Some rec) -> has_event_id event_id rec.
Proof. unfold roster_row. intros E. row_inv E. reflexivity. Qed.

Lemma lender_row_event_id (ws : sheet) (event_id : json) (row : Z) (rec : json) :
  lender_row ws event_id row = Ok (Some rec) -> has_event_id event_id rec.
Proof. unfold lender_row. intros E. row_inv E. reflexivity. Qed.

Lemma inventory_row_event_id (ws : sheet) (event_id : json) (row : Z) (rec : json) :
  inventory_row ws event_id row = Ok (Some rec) -> has_event_id event_id rec.
Proof.
  unfold inventory_row. intros E. row_inv E.
  unfold has_event_id, getitem.
  rewrite retail_spread_other, pricing_other by reflexivity. reflexivity.
Qed.

Lemma deal_row_event_id (ws : sheet) (event_id : json) (row : Z) (rec : json) :
  deal_row ws event_id row = Ok (Some rec) -> has_event_id event_id rec.
Proof. unfold deal_row. intros E. row_inv E. reflexivity. Qed.

Lemma mail_row_event_id (ws : sheet) (event_id : json) (row : Z) (rec : json) :
  mail_row ws event_id row = Ok (Some rec) -> has_event_id event_id rec.
Proof.
  unfold mail_row. intros E. row_inv E.
  destruct (response_rate _ _) as [rate|e]; [|discriminate].
  cbn [rbind] in E. injection E as <-. reflexivity.
Qed.

Section PipelineFacts.
Context {W : Type} `{Transport W}.

Ltac sends_step :=
  first
    [ apply sends_ret
    | apply sends_raise
    | apply sends_print
    | apply sends_lift
    | apply sends_api; reflexivity
    | apply sends_http; reflexivity
    | apply sends_bind_lift; intros ? ?
    | apply sends_bind; [|intros ? ? ? ?]
    | match goal with
      | |- sends _ (if ?b then _ else _) => destruct b
      | |- sends _ (let _ := _ in _) => cbv zeta
      end ].

(** Resolution talks to the parent table and the SQL endpoint only. *)
Lemma resolve_event_sends : sends not_child_write (resolve_event (W := W)).
Proof. unfold resolve_event, event_query. repeat sends_step. Qed.

Lemma carries_post (event_id : json) (table : string) (records : list json) :
  Forall (has_event_id event_id) records ->
  carries event_id (rest_request POST table (Some (JList records)) []).
Proof. intros Hr. exact Hr. Qed.

Lemma sends_post_batches (event_id : json) (table : string) (data : list json) :
  Forall (has_event_id event_id) data ->
  sends (carries event_id) (post_batches (W := W) table data).
Proof.
  intros Hd. unfold post_batches. apply sends_for_each. intros idx _.
  apply sends_post, carries_post.
  rewrite Forall_forall in *. intros rec Hin.
  apply Hd. eapply In_slice. eassumption.
Qed.

End PipelineFacts.

Section RunFacts.
Context {W : Type} `{Transport W}.

Ltac sends_auto :=
  repeat first
    [ apply sends_ret
    | apply sends_print
    | apply sends_seq
    | apply sends_bind_lift; intros ? ?
    | match goal with
      | |- sends _ (match ?l with [] => _ | _ :: _ => _ end) => destruct l eqn:?
      end ].

Lemma seed_roster_sends (ws : sheet) (event_id : json) :
  sends (carries event_id) (seed_roster (W := W) ws event_id).
Proof.
  unfold seed_roster. apply sends_bind_lift. intros data Hdata.
  apply sends_seq; [|apply sends_print].
  apply sends_post, carries_post.
  eapply collect_forall; [|exact Hdata]. intros r rec. apply roster_row_event_id.
Qed.

Lemma seed_lenders_sends (ws : sheet) (event_id : json) :
  sends (carries event_id) (seed_lenders (W := W) ws event_id).
Proof.
  unfold seed_lenders. apply sends_seq; [apply sends_print|].
  apply sends_bind_lift. intros data Hdata.
  assert (Hall : Forall (has_event_id event_id) data)
    by (eapply collect_forall; [|exact Hdata]; intros r rec; apply lender_row_event_id).
  destruct data; [apply sends_ret|].
  apply sends_seq; [|apply sends_print]. now apply sends_post, carries_post.
Qed.

Lemma seed_inventory_sends (wb : workbook) (event_id : json) :
  sends (carries event_id) (seed_inventory (W := W) wb event_id).
Proof.
  unfold seed_inventory. apply sends_seq; [apply sends_print|].
  apply sends_bind_lift. intros ws _. apply sends_bind_lift. intros data Hdata.
  assert (Hall : Forall (has_event_id event_id) data)
    by (eapply collect_forall; [|exact Hdata]; intros r rec; apply inventory_row_event_id).
  destruct data; [apply sends_ret|].
  apply sends_seq; [|apply sends_print]. now apply sends_post_batches.
Qed.

Lemma seed_deals_sends (wb : workbook) (event_id : json) :
  sends (carries event_id) (seed_deals (W := W) wb event_id).
Proof.
  unfold seed_deals. apply sends_seq; [apply sends_print|].
  apply sends_bind_lift. intros ws _. apply sends_bind_lift. intros data Hdata.
  assert (Hall : Forall (has_event_id event_id) data)
    by (eapply collect_forall; [|exact Hdata]; intros r rec; apply deal_row_event_id).
  destruct data; [apply sends_ret|].
  apply sends_seq; [|apply sends_print]. now apply sends_post, carries_post.
Qed.

Lemma seed_mail_sends (wb : workbook) (event_id : json) :
  sends (carries event_id) (seed_mail (W := W) wb event_id).
Proof.
  unfold seed_mail. apply sends_seq; [apply sends_print|].
  apply sends_bind_lift. intros ws _. apply sends_bind_lift. intros data Hdata.
  assert (Hall : Forall (has_event_id event_id) data)
    by (eapply collect_forall; [|exact Hdata]; intros r rec; apply mail_row_event_id).
  destruct data; [apply sends_ret|].
  apply sends_seq; [|apply sends_print]. now apply sends_post_batches.
Qed.

Lemma seed_config_sends (event_id : json) :
  sends (carries event_id) (seed_config (W := W) event_id).
Proof.
  unfold seed_config. apply sends_seq; [apply sends_print|].
  apply sends_seq; [|apply sends_seq; apply sends_print].
  apply sends_post. repeat constructor.
Qed.

(** Every request of sections 2 to 7 carries the resolved identifier. *)
Lemma seed_children_sends (wb : workbook) (event_id : json) :
  sends (carries event_id) (seed_children (W := W) wb event_id).
Proof.
  unfold seed_children. apply sends_seq; [apply sends_print|].
  apply sends_bind_lift. intros ws _.
  apply sends_seq; [apply seed_roster_sends|].
  apply sends_seq; [apply seed_lenders_sends|].
  apply sends_seq; [apply seed_inventory_sends|].
  apply sends_seq; [apply seed_deals_sends|].
  apply sends_seq; [apply seed_mail_sends | apply seed_config_sends].
Qed.

Lemma child_writes_none (d : list event) :
  Forall not_child_write (sent d) -> child_writes d = [].
Proof.
  unfold child_writes. induction (sent d) as [|r l IH]; intros Hall; [reflexivity|].
  inversion Hall as [|? ? Hr Hl]; subst. simpl. rewrite Hr. auto.
Qed.

(** The three ways a run can go, according to the outcome of the
    resolution. *)
Lemma main_cases (wb : workbook) (st : state W) :
  match resolve_event st with
  | (st1, Raise e) => main wb st = (st1, Raise e)
  | (st1, Ok event_id) =>
      if truthy event_id then main wb st = seed_children wb event_id st1
      else main wb st =
           ({| world := world st1;
               trace := trace st1 ++ [Printed (Text "FATAL: No event ID")] |},
            Raise (SystemExit 1))
  end.
Proof.
  unfold main. destruct (resolve_event st) as [st1 [event_id|e]] eqn:E.
  - destruct (truthy event_id) eqn:Ht; unfold bind at 1; rewrite E;
      unfold fatal_check, bind; rewrite Ht; reflexivity.
  - unfold bind. now rewrite E.
Qed.

(** C1: when the resolution ends without a truthy event identifier, the
    run stops with [SystemExit(1)], a non-zero exit status, right after
    the resolution, with the FATAL line as its last output and without any
    write to a child table; when the resolution itself raises, the run
    ends there with that exception; and whenever a run writes to a child
    table, the resolution had returned a truthy identifier. *)
Theorem fatal_without_parent (wb : workbook) (w : W) :
  let run := main wb (start w) in
  let res := resolve_event (start w) in
  (forall event_id, snd res = Ok event_id -> truthy event_id = false ->
     snd run = Raise (SystemExit 1) /\
     exit_status (snd run) <> 0 /\
     child_writes (trace (fst run)) = [] /\
     trace (fst run) = (trace (fst res) ++ [Printed (Text "FATAL: No event ID")])%list) /\
  (forall e, snd res = Raise e -> run = (fst res, Raise e)) /\
  (child_writes (trace (fst run)) <> [] ->
     exists event_id, snd res = Ok event_id /\ truthy event_id = true).
Proof.
  cbv zeta. pose proof (main_cases wb (start w)) as Hm.
  destruct (resolve_event_sends (start w)) as (d & Hd & Hq). simpl in Hd.
  destruct (resolve_event (start w)) as [st1 [event_id|e]]; simpl in *.
  - split; [|split; [discriminate|]]; destruct (truthy event_id) eqn:Ht.
    + intros ? E; inversion E; subst; congruence.
    + rewrite Hm. simpl. intros ? _ _. repeat split; try discriminate.
      rewrite Hd, child_writes_app, child_writes_none by assumption. reflexivity.
    + eauto.
    + rewrite Hm. simpl.
      rewrite Hd, child_writes_app, child_writes_none by assumption.
      intros Hc. now elim Hc.
  - rewrite Hm. simpl. split; [discriminate|]. split; [intros ? E; now inversion E|].
    rewrite Hd, child_writes_none by assumption. intros Hc. now elim Hc.
Qed.

(** C8: every write to a child table (roster, lenders, inventory, deals,
    mail tracking, event config) sends only records whose [event_id] is
    the one identifier that the resolution returned for this run. *)
Theorem children_carry_event_id (wb : workbook) (w : W) (r : request) :
  In r (child_writes (trace (fst (main wb (start w))))) ->
  exists event_id,
    snd (resolve_event (start w)) = Ok event_id /\
    truthy event_id = true /\
    Forall (fun rec => getitem rec "event_id" = Ok event_id) (records_of (req_json r)).
Proof.
  pose proof (main_cases wb (start w)) as Hm.
  destruct (resolve_event_sends (start w)) as (d & Hd & Hq). simpl in Hd.
  destruct (resolve_event (start w)) as [st1 [event_id|e]]; simpl in *.
  - destruct (truthy event_id) eqn:Ht.
    + rewrite Hm. destruct (seed_children_sends wb event_id st1) as (d2 & Hd2 & Hc).
      rewrite Hd2, Hd, !child_writes_app, child_writes_none by assumption.
      simpl. intros Hin. exists event_id. repeat split; auto.
      unfold child_writes in Hin. apply filter_In in Hin as [Hin _].
      rewrite Forall_forall in Hc. exact (Hc r Hin).
    + rewrite Hm. simpl.
      rewrite Hd, child_writes_app, child_writes_none by assumption.
      intros [].
  - rewrite Hm. simpl. rewrite Hd, child_writes_none by assumption. intros [].
Qed.

End RunFacts.

(** * The write client, the resolver and the batch loop *)

Section ClientFacts.
Context {W : Type} `{Transport W}.

(** C7: when a call of the write client receives a response whose
    status is 400 or more, the client prints one error line with the
    status and the first 200 characters of the body and returns [None]
    without raising; on a status below 400 it prints nothing and returns
    the parsed body (the raw text when the body does not parse). *)
Theorem api_failure_sentinel (st : state W) (m : method) (table : string)
    (data : option json) (params : list (string * string)) (w' : W) (resp : response) :
  send (world st) (rest_request m table data params) = (w', Some resp) ->
  let req := rest_request m table data params in
  let shown := PyStr.take 200 (text resp) in
  (400 <= status_code resp ->
     api m table data params st =
       ({| world := w';
           trace := trace st ++ [Sent req; Printed (ErrorLine (status_code resp) shown)] |},
        Ok JNull)
     /\ (String.length shown <= 200)%nat
     /\ exists rest, text resp = shown ++ rest) /\
  (status_code resp < 400 ->
     api m table data params st =
       ({| world := w'; trace := trace st ++ [Sent req] |},
        Ok (match parsed resp with Some j => j | None => JStr (text resp) end))).
Proof.
  intros Hsend. cbv zeta. unfold api, bind. rewrite (http_ok _ _ _ _ Hsend).
  split; intros Hs.
  - apply Z.leb_le in Hs. rewrite Hs. unfold print, ret. cbn [world trace].
    rewrite <- app_assoc. split; [reflexivity|].
    destruct (PyStrFacts.take_prefix 200 (text resp)) as (rest & Hr & Hl).
    split; [exact Hl | now exists rest].
  - apply Z.leb_gt in Hs. rewrite Hs. reflexivity.
Qed.

(** C9: against a backend that answers the event query, without
    changing its state, with a non-empty list whose first entity has an
    [id] and a [name], the resolution returns that [id], sends the query
    and nothing else (no create call), and a second resolution returns
    the same [id] and leaves the backend as it was. *)
Theorem resolve_reuses_existing (st : state W) (resp : response)
    (e id name : json) (rest : list json) :
  send (world st) event_query_request = (world st, Some resp) ->
  status_code resp < 400 ->
  parsed resp = Some (JList (e :: rest)) ->
  getitem e "id" = Ok id ->
  getitem e "name" = Ok name ->
  let first := resolve_event st in
  let second := resolve_event (fst first) in
  let step := [Printed (Banner "EVENT"); Sent event_query_request;
               Printed (UsingExisting name id)] in
  snd first = Ok id /\
  snd second = Ok id /\
  trace (fst first) = (trace st ++ step)%list /\
  trace (fst second) = (trace st ++ step ++ step)%list /\
  world (fst second) = world st /\
  Forall (fun r => is_event_create r = false) (sent (step ++ step)).
Proof.
  intros Hsend Hs Hp Hid Hname. cbv zeta.
  assert (Hrun : forall tr,
    resolve_event {| world := world st; trace := tr |} =
    ({| world := world st;
        trace := tr ++ [Printed (Banner "EVENT"); Sent event_query_request;
                        Printed (UsingExisting name id)] |}, Ok id)).
  { intros tr. unfold resolve_event, event_query, api, bind, print, lift, ret.
    cbn [world trace]. fold event_query_request.
    rewrite (http_ok event_query_request {| world := world st; trace := _ |} _ _ Hsend).
    apply Z.leb_gt in Hs. rewrite Hs, Hp. cbn [nonempty truthy py_len rbind].
    cbn [List.length Z.of_nat Z.ltb Z.compare first_id index0 rbind].
    rewrite Hid, Hname. cbn [rbind world trace].
    now rewrite <- !app_assoc. }
  destruct st as [w tr]. cbn [world trace] in *.
  rewrite Hrun. cbn [fst snd world trace]. rewrite Hrun. cbn [fst snd world trace].
  rewrite <- !app_assoc. repeat split. repeat constructor.
Qed.

(** ** Chunking *)

Lemma range_step_0 (k : nat) : (0 < k)%nat -> range_step 0 k = [].
Proof.
  intros Hk. unfold range_step. rewrite Nat.div_small by lia. reflexivity.
Qed.

Lemma range_step_pos (len k : nat) :
  (0 < k)%nat -> (0 < len)%nat ->
  range_step len k = 0%nat :: map (fun x => (x + k)%nat) (range_step (len - k) k).
Proof.
  intros Hk Hlen. unfold range_step.
  assert (E : ((len + k - 1) / k = S ((len - k + k - 1) / k))%nat).
  { destruct (Nat.le_gt_cases k len) as [Hle|Hgt].
    - replace (len + k - 1)%nat with ((len - k + k - 1) + 1 * k)%nat by lia.
      rewrite Nat.div_add by lia. lia.
    - replace (len - k)%nat with 0%nat by lia.
      rewrite (Nat.div_small (0 + k - 1)) by lia.
      assert (Hq : ((len + k - 1) / k < 2)%nat) by (apply Nat.Div0.div_lt_upper_bound; lia).
      assert (Hq' : (1 <= (len + k - 1) / k)%nat) by (apply Nat.div_le_lower_bound; lia).
      lia. }
  rewrite E. cbn [seq map]. f_equal.
  rewrite <- seq_shift, !map_map. apply map_ext. intros x. simpl. lia.
Qed.

Lemma range_step_length (len k : nat) :
  List.length (range_step len k) = ((len + k - 1) / k)%nat.
Proof. unfold range_step. now rewrite length_map, length_seq. Qed.

Lemma slice_shift {A : Type} (idx k : nat) (l : list A) :
  slice (idx + k) (idx + k + k) l = slice idx (idx + k) (skipn k l).
Proof.
  unfold slice. rewrite skipn_skipn. f_equal; lia.
Qed.

Lemma concat_slices {A : Type} (k : nat) (l : list A) :
  (0 < k)%nat ->
  List.concat (map (fun idx => slice idx (idx + k) l) (range_step (List.length l) k)) = l.
Proof.
  intros Hk. remember (List.length l) as len eqn:Hlen. revert l Hlen.
  induction len as [len IH] using lt_wf_ind. intros l Hlen.
  destruct len as [|len'].
  - rewrite range_step_0 by assumption. destruct l; [reflexivity | discriminate].
  - rewrite range_step_pos by lia. cbn [map List.concat].
    rewrite map_map.
    rewrite (map_ext _ (fun idx => slice idx (idx + k) (skipn k l)))
      by (intros idx; apply slice_shift).
    rewrite (IH (S len' - k)%nat) by (rewrite ?length_skipn; lia).
    unfold slice. simpl skipn. rewrite Nat.sub_0_r. apply firstn_skipn.
Qed.

(** The chunks are consecutive, complete, at most 20 long, and there are
    ceil(N/20) of them. *)
Lemma chunks_spec (data : list json) :
  List.concat (chunks data) = data /\
  List.length (chunks data) = ((List.length data + 19) / 20)%nat /\
  Forall (fun c => (List.length c <= 20)%nat) (chunks data).
Proof.
  unfold chunks. split; [apply concat_slices; lia|]. split.
  - rewrite length_map, range_step_length. f_equal. lia.
  - apply Forall_forall. intros c Hc. apply in_map_iff in Hc as (idx & <- & _).
    unfold slice. rewrite length_firstn. lia.
Qed.

(** A backend that answers every request answers every call whose
    payload can be serialised. *)
Lemma responsive_send (w : W) (r : request) :
  responsive -> serialisable r = true -> exists w' resp, send w r = (w', Some resp).
Proof. intros Hr Hs. unfold send. rewrite Hs. apply Hr. Qed.

Lemma forallb_slice {A : Type} (f : A -> bool) (a b : nat) (l : list A) :
  forallb f l = true -> forallb f (slice a b l) = true.
Proof.
  intros Hl. unfold slice.
  assert (Hskip : forall k (m : list A),
            forallb f m = true -> forallb f (skipn k m) = true).
  { induction k as [|k IH]; intros [|y m] Hm; simpl; auto.
    simpl in Hm. apply andb_true_iff in Hm as [_ Hm]. now apply IH. }
  assert (Hfirst : forall k (m : list A),
            forallb f m = true -> forallb f (firstn k m) = true).
  { induction k as [|k IH]; intros [|y m] Hm; simpl; auto.
    simpl in Hm. apply andb_true_iff in Hm as [Hy Hm]. rewrite Hy. now apply IH. }
  now apply Hfirst, Hskip.
Qed.

Lemma post_run (table : string) (data : json) (st : state W) :
  responsive ->
  json_finite data = true ->
  exists st', post table data st = (st', Ok tt) /\
    exists d, trace st' = (trace st ++ d)%list /\
      sent d = [rest_request POST table (Some data) []].
Proof.
  intros Hr Hf.
  destruct (responsive_send (world st) (rest_request POST table (Some data) []) Hr Hf)
    as (w' & resp & Hs).
  unfold post, api, bind. rewrite (http_ok _ _ _ _ Hs).
  destruct (400 <=? status_code resp); unfold print, ret; cbn [world trace];
    eexists; (split; [reflexivity|]); cbn [trace]; rewrite <- ?app_assoc;
    eexists; (split; [reflexivity|]); reflexivity.
Qed.

(** With a backend that answers and records that can be serialised, the
    batch loop issues one write per chunk, in order. *)
Lemma post_batches_run (table : string) (data : list json) (st : state W) :
  responsive ->
  forallb json_finite data = true ->
  exists st', post_batches table data st = (st', Ok tt) /\
    exists d, trace st' = (trace st ++ d)%list /\
      sent d = map (fun c => rest_request POST table (Some (JList c)) []) (chunks data).
Proof.
  intros Hr Hf. unfold post_batches, chunks.
  generalize (range_step (List.length data) 20). intros idxs. revert st.
  induction idxs as [|idx idxs IH]; intros st; cbn [for_each map].
  - exists st. split; [reflexivity|]. exists []. now rewrite app_nil_r.
  - destruct (post_run table (JList (slice idx (idx + 20) data)) st Hr
                (forallb_slice json_finite idx (idx + 20) data Hf))
      as (st1 & E1 & d1 & Hd1 & Hs1).
    destruct (IH st1) as (st2 & E2 & d2 & Hd2 & Hs2).
    exists st2. unfold bind at 1. rewrite E1. split; [exact E2|].
    exists (d1 ++ d2)%list. rewrite Hd2, Hd1, app_assoc, sent_app, Hs1, Hs2. auto.
Qed.

Lemma print_run (l : line) (st : state W) :
  print l st = ({| world := world st; trace := trace st ++ [Printed l] |}, Ok tt).
Proof. reflexivity. Qed.

(** The batched stages: with a backend that answers and records that can
    be serialised, the inventory and the mail-tracking records go out in
    ceil(N/20) writes, the chunks of [chunks_spec]. *)
Lemma batched_stage_run (banner table what : string) (data : list json) (st : state W) :
  responsive ->
  forallb json_finite data = true ->
  exists d,
    trace (fst ((print (Banner banner) ;;;
                 match data with
                 | [] => ret tt
                 | _ => post_batches table data ;;; print (Inserted (List.length data) what)
                 end) st)) = (trace st ++ d)%list /\
    sent d = map (fun c => rest_request POST table (Some (JList c)) []) (chunks data).
Proof.
  intros Hr Hf. unfold bind at 1. rewrite print_run.
  destruct data as [|rec data].
  - exists [Printed (Banner banner)]. split; reflexivity.
  - set (st1 := {| world := world st; trace := trace st ++ [Printed (Banner banner)] |}).
    destruct (post_batches_run table (rec :: data) st1 Hr Hf) as (st2 & E2 & d & Hd & Hs).
    unfold bind. rewrite E2, print_run. cbn [fst trace].
    exists ([Printed (Banner banner)] ++ d ++ [Printed (Inserted (List.length (rec :: data)) what)])%list.
    split.
    + rewrite Hd. subst st1. cbn [trace]. now rewrite <- !app_assoc.
    + rewrite !sent_app, Hs. cbn [sent flat_map app]. now rewrite app_nil_r.
Qed.

Lemma seed_inventory_run (wb : workbook) (event_id : json) (st : state W)
    (ws : sheet) (data : list json) :
  responsive ->
  wb_sheet wb "INVENTORY" = Ok ws ->
  collect (range 2 (max_row ws + 1)) (inventory_row ws event_id) = Ok data ->
  forallb json_finite data = true ->
  exists d, trace (fst (seed_inventory wb event_id st)) = (trace st ++ d)%list /\
    sent d = map (fun c => rest_request POST "vehicle_inventory" (Some (JList c)) [])
               (chunks data).
Proof.
  intros Hr Hws Hdata Hf.
  destruct (batched_stage_run "INVENTORY" "vehicle_inventory" "inventory items" data st Hr Hf)
    as (d & Hd & Hs).
  exists d. split; [|exact Hs]. rewrite <- Hd.
  unfold seed_inventory, bind, lift. rewrite print_run, Hws, Hdata. reflexivity.
Qed.

Lemma seed_mail_run (wb : workbook) (event_id : json) (st : state W)
    (ws : sheet) (data : list json) :
  responsive ->
  wb_sheet wb "MAIL TRACKING" = Ok ws ->
  collect (range 2 (max_row ws + 1)) (mail_row ws event_id) = Ok data ->
  forallb json_finite data = true ->
  exists d, trace (fst (seed_mail wb event_id st)) = (trace st ++ d)%list /\
    sent d = map (fun c => rest_request POST "mail_tracking" (Some (JList c)) [])
               (chunks data).
Proof.
  intros Hr Hws Hdata Hf.
  destruct (batched_stage_run "MAIL TRACKING" "mail_tracking" "mail tracking entries" data st
              Hr Hf)
    as (d & Hd & Hs).
  exists d. split; [|exact Hs]. rewrite <- Hd.
  unfold seed_mail, bind, lift. rewrite print_run, Hws, Hdata. reflexivity.
Qed.

(** The deal-log stage issues at most one write, whatever the number of
    records. *)
Lemma seed_deals_single_write (wb : workbook) (event_id : json) (st : state W) :
  exists d, trace (fst (seed_deals wb event_id st)) = (trace st ++ d)%list /\
    (List.length (sent d) <= 1)%nat.
Proof.
  unfold seed_deals, bind, print, lift. cbn [world trace].
  destruct (wb_sheet wb "DEAL LOG") as [ws|e];
    [|exists [Printed (Banner "DEALS")]; split; [reflexivity | simpl; lia]].
  destruct (collect _ _) as [[|rec data]|e];
    try (exists [Printed (Banner "DEALS")]; split; [reflexivity | simpl; lia]).
  unfold post, api, bind.
  match goal with
  | |- context [http ?r ?st0] =>
      destruct (http_cases r st0) as [(w' & resp & _ & E)|[(w' & _ & E)|[_ E]]]; rewrite E
  end; cbn [world trace fst];
    [destruct (400 <=? status_code resp)| |]; cbn [print ret world trace fst];
    rewrite <- ?app_assoc; eexists; (split; [reflexivity|]); simpl; lia.
Qed.

End ClientFacts.

(** * Coercions: totality and parsed values *)

(** C2 (as amended): [n], [i] and [s] never raise.  [n] and [i] return
    absent for a missing, empty or unparseable cell and otherwise the value
    that [float(v)], respectively [int(float(v))], computes, so that
    [i("42.9") = 42] and [n("") = absent].  [s] returns absent only for a
    missing cell; otherwise it returns [str(v)] with the whitespace at both
    ends removed, so that [s("  Bob  ") = "Bob"] and [s("")] is the empty
    string, not absent. *)
Theorem coercions_spec :
  (forall v, exists o, n v = Ok o) /\
  (forall v, exists o, i v = Ok o) /\
  (forall v, exists o, s v = Ok o) /\
  (forall v x, n v = Ok (Some x) <-> v <> CNone /\ py_float v = Ok x) /\
  (forall v z, i v = Ok (Some z) <->
     v <> CNone /\ exists x, py_float v = Ok x /\ PyFloat.to_Z x = Ok z) /\
  (forall v, s v = Ok (match v with CNone => None | _ => Some (PyStr.strip (py_str v)) end)) /\
  (forall v t, s v = Ok (Some t) ->
     exists a b, py_str v = a ++ t ++ b
       /\ all_chars PyStr.isspace a = true /\ all_chars PyStr.isspace b = true
       /\ first_char_ok PyStr.isspace t /\ last_char_ok PyStr.isspace t) /\
  (n CNone = Ok None /\ n (CStr "") = Ok None /\
   i CNone = Ok None /\ i (CStr "") = Ok None /\
   s CNone = Ok None /\ s (CStr "") = Ok (Some "")) /\
  i (CStr "42.9") = Ok (Some 42) /\
  s (CStr "  Bob  ") = Ok (Some "Bob").
Proof.
  split; [intros v; eexists; apply n_eq|].
  split; [intros v; eexists; apply i_eq|].
  split; [intros v; eexists; apply s_eq|].
  split; [exact n_some|].
  split; [exact i_some|].
  split; [intros v; now destruct v|].
  split.
  { intros v t E. assert (Ht : t = PyStr.strip (py_str v)) by (destruct v; now inversion E).
    subst t. apply PyStrFacts.strip_spec. }
  repeat split; vm_compute; reflexivity.
Qed.

(** The text coercion of an empty text cell is the empty string: it is
    not absent. *)
Lemma text_of_empty_cell_not_absent : s (CStr "") <> Ok None.
Proof. discriminate. Qed.

Lemma coercions_spec_witness :
  exists a b, py_str (CStr "  Bob  ") = a ++ "Bob" ++ b
    /\ all_chars PyStr.isspace a = true /\ all_chars PyStr.isspace b = true
    /\ first_char_ok PyStr.isspace "Bob" /\ last_char_ok PyStr.isspace "Bob".
Proof.
  destruct coercions_spec as (_ & _ & _ & _ & _ & _ & Htrim & _).
  apply (Htrim (CStr "  Bob  ") "Bob"). reflexivity.
Defined.

(** * Witnesses and counterexamples on the sample workbook *)

Lemma fatal_without_parent_witness :
  (snd (main sample_book (start tt)) = Raise (SystemExit 1) /\
   child_writes (trace (fst (main sample_book (start tt)))) = []) /\
  exists event_id,
    snd (resolve_event (start ([] : list json))) = Ok event_id /\ truthy event_id = true.
Proof.
  split.
  - destruct (fatal_without_parent sample_book tt) as (Hfatal & _ & _).
    destruct (Hfatal JNull) as (Hexit & _ & Hnone & _);
      [vm_compute; reflexivity | reflexivity |].
    split; assumption.
  - destruct (fatal_without_parent sample_book ([] : list json)) as (_ & _ & Hwrites).
    apply Hwrites. vm_compute. discriminate.
Defined.

(** A vehicle whose trade value is 0 and whose cost is 8000 has both
    values available, and its record has no pricing-tier field. *)
Lemma zero_trade_value_no_tiers :
  exists item,
    inventory_row zero_trade_inventory (JInt 1) 2 = Ok (Some (JDict item)) /\
    n (value zero_trade_inventory "O" 2) = Ok (Some 0%float) /\
    n (value zero_trade_inventory "Q" 2) = Ok (Some 8000%float) /\
    dict_get "price_115" item = None /\
    dict_get "profit_115" item = None.
Proof.
  exists (match inventory_row zero_trade_inventory (JInt 1) 2 with
          | Ok (Some (JDict d)) => d
          | _ => []
          end).
  repeat split; vm_compute; reflexivity.
Qed.

Lemma pricing_tiers_spec_witness :
  tier_fields 10000 8000 sample_item /\
  dict_get "price_115" sample_item = Some (JFloat 11500) /\
  dict_get "profit_115" sample_item = Some (JFloat 3500).
Proof.
  assert (Hrow : inventory_row sample_inventory (JInt 1) 2 = Ok (Some (JDict sample_item)))
    by (vm_compute; reflexivity).
  assert (HT : n (value sample_inventory "O" 2) = Ok (Some 10000%float))
    by (vm_compute; reflexivity).
  assert (HC : n (value sample_inventory "Q" 2) = Ok (Some 8000%float))
    by (vm_compute; reflexivity).
  destruct (pricing_tiers_spec sample_inventory (JInt 1) 2 sample_item _ _ Hrow HT HC)
    as [Hspec _].
  change (tier_fields 10000 8000 sample_item) in Hspec.
  split; [exact Hspec|]. split; vm_compute; reflexivity.
Defined.

Lemma response_rate_spec_witness :
  response_rate (Some 1000) (Some 50) <> Raise ZeroDivisionError /\
  exists item, mail_row sample_mail (JInt 1) 2 = Ok (Some (JDict item)) /\
    dict_get "pieces_sent" item = Some (JInt 1000) /\
    dict_get "total_responses" item = Some (JInt 50) /\
    dict_get "response_rate" item = Some (JFloat (lit "0.05")).
Proof.
  assert (HE : s (value sample_mail "E" 2) = Ok (Some "62656")) by reflexivity.
  assert (HD : s (value sample_mail "D" 2) = Ok (Some "Lincoln")) by reflexivity.
  assert (HB : i (value sample_mail "B" 2) = Ok (Some 1000)) by (vm_compute; reflexivity).
  assert (HF : i (value sample_mail "F" 2) = Ok (Some 50)) by (vm_compute; reflexivity).
  destruct (response_rate_spec sample_mail (JInt 1) 2 _ _ _ _ HE HD HB HF)
    as (Hzero & (item & Hrow & q & Hq & Hrate) & _).
  split; [exact Hzero|]. exists item. split; [exact Hrow|].
  assert (Hq' : PyFloat.truediv 50 1000 = Ok (lit "0.05")) by (vm_compute; reflexivity).
  rewrite Hq' in Hq. injection Hq as <-.
  assert (Hround : PyFloat.round (lit "0.05") 4 = lit "0.05") by (vm_compute; reflexivity).
  rewrite Hround in Hrate.
  assert (Hitem : mail_row sample_mail (JInt 1) 2 = Ok (Some (JDict sample_entry)))
    by (vm_compute; reflexivity).
  rewrite Hitem in Hrow. injection Hrow as <-.
  split; [vm_compute; reflexivity|]. split; [vm_compute; reflexivity | exact Hrate].
Defined.

Lemma roster_row_spec_witness :
  exists nm, Some "Jane Doe" = Some nm /\
    roster_row sample_roster (JInt 1) 2 =
    Ok (Some (JDict
      [ ("event_id", JInt 1);
        ("name", JStr nm);
        ("phone", of_str (Some "555-1212"));
        ("role", JStr (map_get nm roles_map "sales"));
        ("confirmed", JBool true);
        ("commission_pct", JFloat 0.25) ])).
Proof.
  assert (HC : s (value sample_roster "C" 2) = Ok (Some "Jane Doe")) by reflexivity.
  assert (HD : s (value sample_roster "D" 2) = Ok (Some "555-1212")) by reflexivity.
  apply (roster_row_spec sample_roster (JInt 1) 2 _ _ HC HD).
  intros [E|[E|E]]; discriminate.
Defined.

Lemma api_failure_sentinel_witness :
  api GET "events" None [] (start tt) =
  ({| world := tt;
      trace := [Sent (rest_request GET "events" None []);
                Printed (ErrorLine 500 "unavailable")] |}, Ok JNull).
Proof.
  assert (Hsend : send (world (start tt)) (rest_request GET "events" None [])
                  = (tt, Some unavailable)) by reflexivity.
  destruct (api_failure_sentinel (start tt) GET "events" None [] tt unavailable Hsend)
    as [Hfail _].
  destruct Hfail as [Hrun _]; [vm_compute; discriminate | exact Hrun].
Defined.

Lemma children_carry_event_id_witness :
  exists event_id,
    snd (resolve_event (start ([] : list json))) = Ok event_id /\
    truthy event_id = true /\
    Forall (fun rec => getitem rec "event_id" = Ok event_id)
      (records_of (Some (JDict (config (JInt 1))))).
Proof.
  apply (children_carry_event_id sample_book ([] : list json)
           (rest_request POST "event_config" (Some (JDict (config (JInt 1)))) [])).
  vm_compute. repeat (first [left; reflexivity | right]).
Defined.

Lemma resolve_reuses_existing_witness :
  snd (resolve_event (start [stored_event])) = Ok (JStr "evt-1") /\
  snd (resolve_event (fst (resolve_event (start [stored_event])))) = Ok (JStr "evt-1") /\
  world (fst (resolve_event (fst (resolve_event (start [stored_event]))))) = [stored_event].
Proof.
  assert (Hsend : send (world (start [stored_event])) event_query_request =
                  (world (start [stored_event]),
                   Some {| status_code := 200; text := "[...]";
                           parsed := Some (JList [stored_event]) |}))
    by reflexivity.
  destruct (resolve_reuses_existing (start [stored_event]) _ stored_event
              (JStr "evt-1") (JStr "Lincoln CDJR") [] Hsend)
    as (H1 & H2 & _ & _ & Hw & _); try reflexivity.
  repeat split; assumption.
Defined.

Lemma sold_status_spec_witness :
  dict_get "sold_status" sample_item = Some (JStr "sold").
Proof.
  assert (Hrow : inventory_row sample_inventory (JInt 1) 2 = Ok (Some (JDict sample_item)))
    by (vm_compute; reflexivity).
  assert (Hraw : s (value sample_inventory "C" 2) = Ok (Some "SOLD 2/24")) by reflexivity.
  apply (sold_status_spec sample_inventory (JInt 1) 2 sample_item _ Hrow Hraw).
  exists "SOLD 2/24". split; [reflexivity|]. split; [discriminate|].
  exists "", " 2/24". reflexivity.
Defined.

(** * The deal log is not chunked *)

(** C4: on the sample workbook, whose deal log has 21 qualifying rows, the
    pipeline issues one write to [deals_v2] holding all 21 records, not
    ceil(21/20) = 2 writes of at most 20; and on a workbook without any
    qualifying row it still issues one write to [roster], with an empty
    list, not ceil(0/20) = 0. *)
Theorem deals_posted_in_one_call :
  let tr := trace (fst (main sample_book (start ([] : list json)))) in
  map (fun body => List.length (payload_records body)) (writes_to "deals_v2" tr) = [21%nat] /\
  List.length (writes_to "deals_v2" tr) <> ((21 + 19) / 20)%nat /\
  writes_to "roster" (trace (fst (main empty_book (start ([] : list json))))) = [JList []].
Proof. vm_compute. repeat split; discriminate. Qed.

(** * Further properties of the row extractors *)

Lemma str_truthy_false (o : option string) :
  str_truthy o = false <-> o = None \/ o = Some "".
Proof.
  destruct o as [t|]; simpl.
  - rewrite negb_false_iff, String.eqb_eq. split.
    + intros ->. now right.
    + intros [E|E]; [discriminate | now inversion E].
  - split; auto.
Qed.

(** X1: A lender row is dropped exactly when its name (column I) is absent or
    empty; a kept row keeps its rate as coerced, absent for an empty or
    unparseable cell. *)
Theorem lender_row_spec (ws : sheet) (event_id : json) (row : Z)
    (name : option string) (pct : option float) :
  s (value ws "I" row) = Ok name ->
  n (value ws "K" row) = Ok pct ->
  (name = None \/ name = Some "" -> lender_row ws event_id row = Ok None) /\
  (forall nm, name = Some nm -> nm <> "" ->
     lender_row ws event_id row =
     Ok (Some (JDict [ ("event_id", event_id); ("name", JStr nm);
                       ("buy_rate_pct", of_float pct) ]))).
Proof.
  intros Hname Hpct. unfold lender_row. rewrite Hname, Hpct. cbn [rbind]. split.
  - intros Hn. apply str_truthy_false in Hn. now rewrite Hn.
  - intros nm -> Hnm. simpl. apply String.eqb_neq in Hnm. now rewrite Hnm.
Qed.

(** X2: A deal row is dropped exactly when both the customer (column I) and the
    stock number (column H) are absent or empty; a kept record has 29
    fields, carries both cells as coerced and always has sale day 1 and
    source "Mail". *)
Theorem deal_row_spec (ws : sheet) (event_id : json) (row : Z)
    (customer stock : option string) :
  s (value ws "I" row) = Ok customer ->
  s (value ws "H" row) = Ok stock ->
  (str_truthy customer = false /\ str_truthy stock = false ->
     deal_row ws event_id row = Ok None) /\
  (str_truthy customer = true \/ str_truthy stock = true ->
     exists item, deal_row ws event_id row = Ok (Some (JDict item)) /\
       List.length item = 29%nat /\
       dict_get "customer_name" item = Some (of_str customer) /\
       dict_get "stock_number" item = Some (of_str stock) /\
       dict_get "sale_day" item = Some (JInt 1) /\
       dict_get "source" item = Some (JStr "Mail")).
Proof.
  intros Hc Hs. unfold deal_row. rewrite Hc, Hs. cbn [rbind]. split.
  - intros [-> ->]. reflexivity.
  - intros Ht. coerce.
    assert (E : negb (str_truthy customer) && negb (str_truthy stock) = false)
      by (destruct Ht as [-> | ->]; [reflexivity | apply andb_false_r]).
    rewrite E. eexists. split; [reflexivity|]. repeat split.
Qed.

(** X3: A mail-tracking row is dropped exactly when its zip code (column E) or
    its town (column D) is absent or empty; in a kept record the seven
    per-day counts and the total are integers, never null. *)
Theorem mail_row_spec (ws : sheet) (event_id : json) (row : Z)
    (zip_code town : option string) :
  s (value ws "E" row) = Ok zip_code ->
  s (value ws "D" row) = Ok town ->
  (str_truthy zip_code = false \/ str_truthy town = false ->
     mail_row ws event_id row = Ok None) /\
  (str_truthy zip_code = true /\ str_truthy town = true ->
     exists item, mail_row ws event_id row = Ok (Some (JDict item)) /\
       dict_get "zip_code" item = Some (of_str zip_code) /\
       dict_get "town" item = Some (of_str town) /\
       dict_get "campaign_name" item = Some (JStr "WIN BIG") /\
       forall k, In k count_keys -> exists z, dict_get k item = Some (JInt z)).
Proof.
  intros Hz Ht. unfold mail_row. rewrite Hz, Ht. cbn [rbind]. split.
  - intros [-> | ->]; [reflexivity | now rewrite orb_true_r].
  - intros [-> ->]. cbn [negb orb]. coerce.
    destruct (response_rate_total _ _ _ _ (i_eq (value ws "B" row)) (i_eq (value ws "F" row)))
      as [rate Hrate].
    rewrite Hrate. cbn [rbind]. eexists. split; [reflexivity|].
    repeat split. intros k Hk.
    assert (Hor : forall o, exists z, Some (or_zero o) = Some (JInt z)).
    { intros [z|]; [|now exists 0]. unfold or_zero.
      destruct (int_truthy (Some z)); eauto. }
    in_cases Hk; cbn [dict_get String.eqb Ascii.eqb Bool.eqb]; apply Hor.
Qed.

(** X4: The retail spread of an inventory record is [round(retail - cost, 2)]
    when retail value and cost are both present and non-zero, and the
    field is missing otherwise. *)
Theorem retail_spread_spec (ws : sheet) (event_id : json) (row : Z)
    (item : dict) (R C : option float) :
  inventory_row ws event_id row = Ok (Some (JDict item)) ->
  n (value ws "P" row) = Ok R ->
  n (value ws "Q" row) = Ok C ->
  dict_get "retail_spread" item =
  match R, C with
  | Some r, Some c =>
      if negb (is_zero r) && negb (is_zero c)
      then Some (JFloat (PyFloat.round (r - c)%float 2))
      else None
  | _, _ => None
  end.
Proof.
  intros Hrow HR HC. unfold inventory_row in Hrow. rewrite HR, HC in Hrow.
  coerce_in Hrow. destruct (_ && _) in Hrow; [discriminate|].
  injection Hrow as <-.
  assert (Hbase : forall T base,
            dict_get "retail_spread" base = None ->
            dict_get "retail_spread" (pricing T C base) = None)
    by (intros T base Hb; now rewrite pricing_other).
  unfold retail_spread.
  destruct R as [r|], C as [c|]; try (now apply Hbase).
  change (negb (is_zero r) && negb (is_zero c))
    with (float_truthy (Some r) && float_truthy (Some c)).
  destruct (float_truthy (Some r) && float_truthy (Some c)).
  - apply dict_get_set_same.
  - now apply Hbase.
Qed.

(** X5: An inventory row is dropped exactly when it has neither a model
    (column G absent or empty) nor a hat number (column A absent or 0);
    the derived fields never overwrite what a kept record holds for the
    hat number, the model and the three valuation cells. *)
Theorem inventory_row_base (ws : sheet) (event_id : json) (row : Z)
    (hat : option Z) (model : option string) (T R C : option float) :
  i (value ws "A" row) = Ok hat ->
  s (value ws "G" row) = Ok model ->
  n (value ws "O" row) = Ok T ->
  n (value ws "P" row) = Ok R ->
  n (value ws "Q" row) = Ok C ->
  (str_truthy model = false /\ int_truthy hat = false ->
     inventory_row ws event_id row = Ok None) /\
  (str_truthy model = true \/ int_truthy hat = true ->
     exists item, inventory_row ws event_id row = Ok (Some (JDict item)) /\
       dict_get "hat_number" item = Some (of_int hat) /\
       dict_get "model" item = Some (of_str model) /\
       dict_get "jd_trade_clean" item = Some (of_float T) /\
       dict_get "jd_retail_clean" item = Some (of_float R) /\
       dict_get "unit_cost" item = Some (of_float C)).
Proof.
  intros Hh Hm HT HR HC. unfold inventory_row. rewrite Hh, Hm, HT, HR, HC.
  cbn [rbind]. split.
  - intros [-> ->]. reflexivity.
  - intros Ht.
    assert (E : negb (str_truthy model) && negb (int_truthy hat) = false)
      by (destruct Ht as [-> | ->]; [reflexivity | apply andb_false_r]).
    rewrite E. coerce. eexists. split; [reflexivity|].
    repeat split; rewrite retail_spread_other, pricing_other by reflexivity; reflexivity.
Qed.

(** * Integer cells and trimmed text *)

Module PyFloatExact.
Import PyFloat.







End PyFloatExact.



Lemma sql_scan_origin (data : list json) (event_id : json) :
  sql_scan data event_id = event_id \/
  exists d0 rest, In (JList (d0 :: rest)) data /\
    getitem d0 "id" = Ok (sql_scan data event_id).
Proof.
  revert event_id. induction data as [|d data IH]; intros event_id; [now left|].
  assert (Hskip : sql_scan data event_id = event_id \/
                  exists d0 rest, In (JList (d0 :: rest)) (d :: data) /\
                    getitem d0 "id" = Ok (sql_scan data event_id)).
  { destruct (IH event_id) as [E|(d0 & rest & Hin & Hid)]; [now left|].
    right. exists d0, rest. split; [now right | assumption]. }
  cbn [sql_scan]. destruct d as [| | | | |[|d0 l]|]; try exact Hskip.
  destruct (py_in "id" d0) as [[|]|]; [|exact Hskip|now left].
  destruct (getitem d0 "id") as [v|] eqn:Hv; [|now left].
  right. destruct (IH v) as [E|(d1 & rest & Hin & Hid)].
  - exists d0, l. split; [now left | now rewrite E].
  - exists d1, rest. split; [now right | assumption].
Qed.

(** X8: The reading of the SQL answer never makes up an identifier: it keeps
    the one it had, or it returns the [id] of the first row of one of the
    result sets of the answer. *)
Theorem sql_result_origin (r : response) (event_id : json) :
  sql_result r event_id = event_id \/
  exists data d0 rest,
    parsed r = Some (JList data) /\
    In (JList (d0 :: rest)) data /\
    getitem d0 "id" = Ok (sql_result r event_id).
Proof.
  unfold sql_result. destruct (parsed r) as [[| | | | |data|]|]; try now left.
  destruct (sql_scan_origin data event_id) as [E|(d0 & rest & Hin & Hid)]; [now left|].
  right. exists data, d0, rest. auto.
Qed.

Module PyStripFacts.
Import PyStr.

Lemma lstrip_by_fixed (p : ascii -> bool) (t : string) :
  first_char_ok p t -> lstrip_by p t = t.
Proof. destruct t as [|c r]; simpl; [reflexivity|]. now intros ->. Qed.

Lemma rstrip_by_fixed (p : ascii -> bool) (t : string) :
  last_char_ok p t -> rstrip_by p t = t.
Proof.
  induction t as [|c r IH]; intros Hlast; [reflexivity|].
  cbn [rstrip_by]. destruct r as [|c' r'].
  - cbn [rstrip_by]. now rewrite (Hlast "" c eq_refl).
  - rewrite IH; [reflexivity|].
    intros u c0 E. apply (Hlast (String c u) c0). simpl. now rewrite E.
Qed.

Lemma strip_idempotent (t : string) : strip (strip t) = strip t.
Proof.
  destruct (PyStrFacts.strip_spec t) as (a & b & _ & _ & _ & Hfirst & Hlast).
  unfold strip at 1, strip_by.
  now rewrite lstrip_by_fixed, rstrip_by_fixed.
Qed.

End PyStripFacts.

(** X7: A text that [s] returned is returned unchanged when it is read again
    as a text cell: the coercion trims once and for all. *)
Theorem text_coercion_idempotent (v : cell) (t : string) :
  s v = Ok (Some t) -> s (CStr t) = Ok (Some t).
Proof.
  intros E. assert (Ht : t = PyStr.strip (py_str v)) by (destruct v; now inversion E).
  subst t. cbn [s py_str]. now rewrite PyStripFacts.strip_idempotent.
Qed.

Lemma text_coercion_idempotent_witness : s (CStr "Bob") = Ok (Some "Bob").
Proof. apply (text_coercion_idempotent (CStr "  Bob  ")). reflexivity. Defined.

(** * Further properties of a run *)

Lemma collect_ok (rows : list Z) (body : Z -> result (option json)) :
  (forall r, exists o, body r = Ok o) -> exists l, collect rows body = Ok l.
Proof.
  intros Hb. induction rows as [|r rows [l IH]]; simpl; [now exists []|].
  destruct (Hb r) as [o Ho]. rewrite Ho, IH. cbn [rbind]. eexists; reflexivity.
Qed.

Lemma roster_row_total (ws : sheet) (event_id : json) (row : Z) :
  exists o, roster_row ws event_id row = Ok o.
Proof.
  unfold roster_row. coerce. destruct (s_value _); [|eexists; reflexivity].
  destruct (_ || _); eexists; reflexivity.
Qed.

Lemma lender_row_total (ws : sheet) (event_id : json) (row : Z) :
  exists o, lender_row ws event_id row = Ok o.
Proof. unfold lender_row. coerce. destruct (negb _); eexists; reflexivity. Qed.

Lemma inventory_row_total (ws : sheet) (event_id : json) (row : Z) :
  exists o, inventory_row ws event_id row = Ok o.
Proof. unfold inventory_row. coerce. destruct (_ && _); eexists; reflexivity. Qed.

Lemma deal_row_total (ws : sheet) (event_id : json) (row : Z) :
  exists o, deal_row ws event_id row = Ok o.
Proof. unfold deal_row. coerce. destruct (_ && _); eexists; reflexivity. Qed.

Lemma mail_row_total (ws : sheet) (event_id : json) (row : Z) :
  exists o, mail_row ws event_id row = Ok o.
Proof.
  unfold mail_row. coerce. destruct (_ || _); [eexists; reflexivity|].
  destruct (response_rate_total _ _ _ _ (i_eq (value ws "B" row)) (i_eq (value ws "F" row)))
    as [rate Hrate].
  rewrite Hrate. eexists; reflexivity.
Qed.

Lemma filter_all {A : Type} (f : A -> bool) (l : list A) :
  Forall (fun x => f x = true) l -> filter f l = l.
Proof.
  induction 1 as [|x l Hx _ IH]; simpl; [reflexivity|]. now rewrite Hx, IH.
Qed.

Lemma batch_writes_child (table : string) (data : list json) :
  In table child_tables ->
  Forall (fun r => is_child_write r = true) (batch_writes table data).
Proof.
  intros Ht. apply Forall_forall. intros r Hr.
  apply in_map_iff in Hr as (c & <- & _).
  in_cases Ht; reflexivity.
Qed.

Lemma optional_write_child (table : string) (data : list json) :
  In table child_tables ->
  Forall (fun r => is_child_write r = true) (optional_write table data).
Proof.
  intros Ht. destruct data; [constructor|]. constructor; [|constructor].
  in_cases Ht; reflexivity.
Qed.

Section IssueFacts.
Context {W : Type} `{Transport W}.

Lemma issues_ret (st : state W) : issues (ret tt) st [].
Proof. exists st, []. repeat split. now rewrite app_nil_r. Qed.

Lemma issues_print (l : line) (st : state W) : issues (print l) st [].
Proof. eexists _, [Printed l]. repeat split. Qed.

Lemma issues_seq (m k : M W unit) (st : state W) (r1 r2 : list request) :
  issues m st r1 -> (forall st', issues k st' r2) ->
  issues (m ;;; k) st (r1 ++ r2)%list.
Proof.
  intros (st1 & d1 & E1 & Hd1 & Hs1) Hk.
  destruct (Hk st1) as (st2 & d2 & E2 & Hd2 & Hs2).
  exists st2, (d1 ++ d2)%list. unfold bind. rewrite E1. split; [exact E2|].
  rewrite Hd2, Hd1, app_assoc, sent_app, Hs1, Hs2. auto.
Qed.

Lemma issues_lift {A : Type} (r : result A) (a : A) (k : A -> M W unit)
    (st : state W) (rs : list request) :
  r = Ok a -> issues (k a) st rs -> issues (bind (lift r) k) st rs.
Proof. intros -> Hk. exact Hk. Qed.

Lemma issues_post (table : string) (data : json) (st : state W) :
  responsive -> json_finite data = true ->
  issues (post table data) st [write_request table data].
Proof.
  intros Hr Hf. destruct (post_run table data st Hr Hf) as (st' & E & d & Hd & Hs).
  now exists st', d.
Qed.

Lemma issues_post_batches (table : string) (data : list json) (st : state W) :
  responsive -> forallb json_finite data = true ->
  issues (post_batches table data) st (batch_writes table data).
Proof.
  intros Hr Hf. destruct (post_batches_run table data st Hr Hf) as (st' & E & d & Hd & Hs).
  now exists st', d.
Qed.

Lemma issues_optional (table what : string) (data : list json) (st : state W) :
  responsive -> forallb json_finite data = true ->
  issues (match data with
          | [] => ret tt
          | _ => post table (JList data) ;;; print (Inserted (List.length data) what)
          end) st (optional_write table data).
Proof.
  intros Hr Hf. destruct data as [|rec data]; [apply issues_ret|].
  rewrite <- (app_nil_r (optional_write table (rec :: data))).
  apply issues_seq; [now apply issues_post | intros; apply issues_print].
Qed.

Lemma issues_batched (table what : string) (data : list json) (st : state W) :
  responsive -> forallb json_finite data = true ->
  issues (match data with
          | [] => ret tt
          | _ => post_batches table data ;;; print (Inserted (List.length data) what)
          end) st (batch_writes table data).
Proof.
  intros Hr Hf. destruct data as [|rec data]; [apply issues_ret|].
  rewrite <- (app_nil_r (batch_writes table (rec :: data))).
  apply issues_seq; [now apply issues_post_batches | intros; apply issues_print].
Qed.

Lemma issues_banner (title : string) (k : M W unit) (st : state W) (rs : list request) :
  (forall st', issues k st' rs) -> issues (print (Banner title) ;;; k) st rs.
Proof. intros Hk. apply (issues_seq _ _ st [] rs); [apply issues_print | exact Hk]. Qed.

(** A roster record holds the event identifier, texts, a flag and the
    fixed commission: it can be serialised when the identifier can. *)
Lemma roster_finite (ws : sheet) (event_id : json) (roster : list json) :
  json_finite event_id = true ->
  collect (range 2 18) (roster_row ws event_id) = Ok roster ->
  forallb json_finite roster = true.
Proof.
  intros Hf Cr. apply forallb_forall. apply Forall_forall.
  refine (collect_forall _ _ _ _ _ Cr).
  intros row rec E. unfold roster_row in E. row_inv E.
  cbn [json_finite forallb snd of_str]. rewrite Hf.
  destruct (s_value (value ws "D" row)); vm_compute; reflexivity.
Qed.

Lemma config_finite (event_id : json) :
  json_finite event_id = true -> json_finite (JDict (config event_id)) = true.
Proof.
  intros Hf. unfold config. cbn [json_finite forallb snd]. rewrite Hf.
  vm_compute. reflexivity.
Qed.

(** Sections 2 to 7 on a backend that answers, with records that can be
    serialised: the stages all run, and the writes go out in the order of
    the script. *)
Lemma seed_children_issues (wb : workbook) (event_id : json)
    (ws ws_inv ws_deals ws_mail : sheet) (roster lenders inventory deals mail : list json)
    (st : state W) :
  responsive ->
  wb "Roster & Tables" = Some ws -> wb "INVENTORY" = Some ws_inv ->
  wb "DEAL LOG" = Some ws_deals -> wb "MAIL TRACKING" = Some ws_mail ->
  collect (range 2 18) (roster_row ws event_id) = Ok roster ->
  collect (range 2 20) (lender_row ws event_id) = Ok lenders ->
  collect (range 2 (max_row ws_inv + 1)) (inventory_row ws_inv event_id) = Ok inventory ->
  collect (range 9 (max_row ws_deals + 1)) (deal_row ws_deals event_id) = Ok deals ->
  collect (range 2 (max_row ws_mail + 1)) (mail_row ws_mail event_id) = Ok mail ->
  json_finite event_id = true ->
  forallb json_finite lenders = true ->
  forallb json_finite inventory = true ->
  forallb json_finite deals = true ->
  forallb json_finite mail = true ->
  issues (seed_children wb event_id) st
    (child_plan event_id roster lenders inventory deals mail).
Proof.
  intros Hr Hws Hinv Hdeals Hmail Cr Cl Ci Cd Cm Fe Fl Fi Fd Fm.
  unfold seed_children, child_plan. apply issues_banner. intros st0.
  eapply issues_lift; [unfold wb_sheet; now rewrite Hws|].
  apply issues_seq.
  { unfold seed_roster. eapply issues_lift; [exact Cr|].
    rewrite <- (app_nil_r [_]).
    apply issues_seq; [|intros; apply issues_print].
    apply issues_post; [exact Hr|]. exact (roster_finite ws event_id roster Fe Cr). }
  intros st1. apply issues_seq.
  { unfold seed_lenders. apply issues_banner. intros st'.
    eapply issues_lift; [exact Cl|]. now apply issues_optional. }
  intros st2. apply issues_seq.
  { unfold seed_inventory. apply issues_banner. intros st'.
    eapply issues_lift; [unfold wb_sheet; now rewrite Hinv|].
    eapply issues_lift; [exact Ci|]. now apply issues_batched. }
  intros st3. apply issues_seq.
  { unfold seed_deals. apply issues_banner. intros st'.
    eapply issues_lift; [unfold wb_sheet; now rewrite Hdeals|].
    eapply issues_lift; [exact Cd|]. now apply issues_optional. }
  intros st4. apply issues_seq.
  { unfold seed_mail. apply issues_banner. intros st'.
    eapply issues_lift; [unfold wb_sheet; now rewrite Hmail|].
    eapply issues_lift; [exact Cm|]. now apply issues_batched. }
  intros st5. unfold seed_config. apply issues_banner. intros st'.
  apply (issues_seq _ _ _ [_] []);
    [apply issues_post; [exact Hr | now apply config_finite]|]. intros st6.
  apply (issues_seq _ _ _ [] []); [apply issues_print | intros; apply issues_print].
Qed.

Lemma finishes_bind {A : Type} (m : M W A) (k : A -> M W unit) :
  (forall a, finishes (k a)) -> finishes (bind m k).
Proof.
  intros Hk st st' E. unfold bind in E.
  destruct (m st) as [st1 [a|e]]; [now apply (Hk a st1) | discriminate].
Qed.

Lemma finishes_seed_children (wb : workbook) (event_id : json) :
  finishes (seed_children wb event_id).
Proof.
  unfold seed_children, seed_config. repeat (apply finishes_bind; intros ?).
  intros st st' E. unfold print in E. injection E as <-. now eexists.
Qed.

(** A run that returns normally ends on the final line of the script. *)
Lemma main_finishes (wb : workbook) : finishes (main wb).
Proof.
  intros st st' E. pose proof (main_cases wb st) as Hm.
  destruct (resolve_event st) as [st1 [event_id|e]].
  - destruct (truthy event_id).
    + rewrite Hm in E. exact (finishes_seed_children wb event_id st1 st' E).
    + rewrite Hm in E. discriminate.
  - rewrite Hm in E. discriminate.
Qed.

(** X13: On a backend that answers every call, whatever the status codes of
    the answers, a run whose resolution returned a truthy identifier, whose
    workbook has the four sheets and whose records hold no nan and no
    infinity (a payload holding one cannot be serialised) ends normally on
    the final line of the script, and its child writes are, in this order:
    one roster write, one lenders write unless there is no lender, the
    inventory batches, one deals write unless there is no deal, the
    mail-tracking batches, one event-config write. *)
Theorem complete_run (wb : workbook) (w : W) (st1 : state W) (event_id : json)
    (ws ws_inv ws_deals ws_mail : sheet)
    (roster lenders inventory deals mail : list json) :
  responsive ->
  resolve_event (start w) = (st1, Ok event_id) ->
  truthy event_id = true ->
  wb "Roster & Tables" = Some ws -> wb "INVENTORY" = Some ws_inv ->
  wb "DEAL LOG" = Some ws_deals -> wb "MAIL TRACKING" = Some ws_mail ->
  collect (range 2 18) (roster_row ws event_id) = Ok roster ->
  collect (range 2 20) (lender_row ws event_id) = Ok lenders ->
  collect (range 2 (max_row ws_inv + 1)) (inventory_row ws_inv event_id) = Ok inventory ->
  collect (range 9 (max_row ws_deals + 1)) (deal_row ws_deals event_id) = Ok deals ->
  collect (range 2 (max_row ws_mail + 1)) (mail_row ws_mail event_id) = Ok mail ->
  json_finite event_id = true ->
  forallb json_finite (lenders ++ inventory ++ deals ++ mail) = true ->
  snd (main wb (start w)) = Ok tt /\
  child_writes (trace (fst (main wb (start w)))) =
    child_plan event_id roster lenders inventory deals mail /\
  exists tr, trace (fst (main wb (start w))) = (tr ++ [Printed Complete])%list.
Proof.
  intros Hr Hres Ht Hws Hinv Hdeals Hmail Cr Cl Ci Cd Cm Fe Fall.
  rewrite !forallb_app in Fall.
  apply andb_true_iff in Fall as [Fl Fall].
  apply andb_true_iff in Fall as [Fi Fall].
  apply andb_true_iff in Fall as [Fd Fm].
  pose proof (main_cases wb (start w)) as Hm. rewrite Hres, Ht in Hm.
  destruct (resolve_event_sends (start w)) as (d1 & Hd1 & Hq). rewrite Hres in Hd1.
  cbn [fst start trace app] in Hd1.
  destruct (seed_children_issues wb event_id ws ws_inv ws_deals ws_mail
              roster lenders inventory deals mail st1 Hr Hws Hinv Hdeals Hmail
              Cr Cl Ci Cd Cm Fe Fl Fi Fd Fm)
    as (st2 & d2 & E2 & Hd2 & Hs2).
  assert (Hrun : main wb (start w) = (st2, Ok tt)) by (now rewrite Hm).
  rewrite Hrun. cbn [fst snd]. split; [reflexivity|]. split.
  - rewrite Hd2, Hd1, child_writes_app, child_writes_none by assumption.
    unfold child_writes. rewrite Hs2. cbn [app]. apply filter_all. unfold child_plan.
    constructor; [reflexivity|].
    repeat (apply Forall_app; split);
      try (apply batch_writes_child; simpl; tauto);
      try (apply optional_write_child; simpl; tauto).
    constructor; [reflexivity | constructor].
  - exact (main_finishes wb (start w) st2 Hrun).
Qed.

End IssueFacts.

(** * The calls of the resolution *)

Lemma is_prefix_nil {A : Type} (l : list A) : is_prefix [] l.
Proof. now exists l. Qed.

Lemma is_prefix_refl {A : Type} (l : list A) : is_prefix l l.
Proof. exists []. now rewrite app_nil_r. Qed.

Lemma is_prefix_app {A : Type} (a b c : list A) :
  is_prefix b c -> is_prefix (a ++ b) (a ++ c).
Proof. intros [x ->]. exists x. now rewrite app_assoc. Qed.

Lemma is_prefix_weaken {A : Type} (a b c : list A) :
  is_prefix a b -> is_prefix a (b ++ c).
Proof. intros [x ->]. exists (x ++ c)%list. now rewrite app_assoc. Qed.

Section OrderFacts.
Context {W : Type} `{Transport W}.

Lemma exactly_within {A : Type} (L : list step) (m : M W A) :
  exactly L m -> within L m.
Proof.
  intros Hm st. destruct (Hm st) as (d & Hd & Hs). exists d. split; [assumption|].
  destruct (snd (m st)); [rewrite Hs; apply is_prefix_refl | assumption].
Qed.

Lemma exactly_ret {A : Type} (a : A) : exactly [] (ret (W := W) a).
Proof. intros st. exists []. split; [now rewrite app_nil_r | reflexivity]. Qed.

Lemma exactly_lift {A : Type} (r : result A) : exactly [] (lift (W := W) r).
Proof.
  intros st. exists []. split; [now rewrite app_nil_r|].
  cbn [lift snd]. destruct r; [reflexivity | apply is_prefix_nil].
Qed.

Lemma exactly_print (l : line) : exactly [] (print (W := W) l).
Proof. intros st. exists [Printed l]. split; reflexivity. Qed.

Lemma exactly_http (r : request) : exactly [classify r] (http r).
Proof.
  intros st.
  destruct (http_cases r st) as [(w' & resp & _ & E)|[(w' & _ & E)|[_ E]]]; rewrite E.
  - exists [Sent r]. split; reflexivity.
  - exists [Sent r]. split; [reflexivity | apply is_prefix_refl].
  - exists []. split; [now rewrite app_nil_r | apply is_prefix_nil].
Qed.

Lemma exactly_bind {A B : Type} (L1 L2 : list step) (m : M W A) (k : A -> M W B) :
  exactly L1 m -> (forall a, exactly L2 (k a)) -> exactly (L1 ++ L2) (bind m k).
Proof.
  intros Hm Hk st. unfold bind. destruct (Hm st) as (d1 & Hd1 & Hs1).
  destruct (m st) as [st1 [a|e]]; cbn [fst snd] in *.
  - destruct (Hk a st1) as (d2 & Hd2 & Hs2).
    exists (d1 ++ d2)%list. rewrite Hd2, Hd1, app_assoc, sent_app, map_app, Hs1.
    split; [reflexivity|].
    destruct (snd (k a st1)); [now rewrite Hs2 | now apply is_prefix_app].
  - exists d1. split; [assumption | now apply is_prefix_weaken].
Qed.

Lemma within_bind {A B : Type} (L1 L2 : list step) (m : M W A) (k : A -> M W B) :
  exactly L1 m -> (forall a, within L2 (k a)) -> within (L1 ++ L2) (bind m k).
Proof.
  intros Hm Hk st. unfold bind. destruct (Hm st) as (d1 & Hd1 & Hs1).
  destruct (m st) as [st1 [a|e]]; cbn [fst snd] in *.
  - destruct (Hk a st1) as (d2 & Hd2 & Hs2).
    exists (d1 ++ d2)%list. rewrite Hd2, Hd1, app_assoc, sent_app, map_app, Hs1.
    split; [reflexivity | now apply is_prefix_app].
  - exists d1. split; [assumption | now apply is_prefix_weaken].
Qed.

Lemma within_nil {A : Type} (L : list step) (m : M W A) :
  exactly [] m -> within L m.
Proof.
  intros Hm st. destruct (exactly_within [] m Hm st) as (d & Hd & Hs).
  exists d. split; [assumption|]. now apply (is_prefix_weaken _ [] L).
Qed.

Lemma exactly_api (m : method) (table : string) (data : option json)
    (params : list (string * string)) :
  exactly [classify (rest_request m table data params)] (api m table data params).
Proof.
  unfold api. apply (exactly_bind [_] []); [apply exactly_http|].
  intros r. destruct (400 <=? status_code r).
  - apply (exactly_bind [] []); [apply exactly_print | intros; apply exactly_ret].
  - apply exactly_ret.
Qed.

Ltac order_step :=
  lazymatch goal with
  | |- within ?L (bind (print _) _) => apply (within_bind [] L); [apply exactly_print | intros ?]
  | |- within ?L (bind (lift _) _) => apply (within_bind [] L); [apply exactly_lift | intros ?]
  | |- within (?x :: ?L) (bind (api _ _ _ _) _) =>
      apply (within_bind [x] L); [apply exactly_api | intros ?]
  | |- within (?x :: ?L) (bind event_query _) =>
      apply (within_bind [x] L); [apply exactly_api | intros ?]
  | |- within (?x :: ?L) (bind (http _) _) =>
      apply (within_bind [x] L); [apply exactly_http | intros ?]
  | |- within _ (if ?b then _ else _) => destruct b
  | |- within _ (ret _) => apply within_nil, exactly_ret
  | |- within _ (lift _) => apply within_nil, exactly_lift
  end.

(** X9: Whatever the backend answers, the resolution makes its calls in one
    fixed order and stops somewhere along it: the event query, the
    profiles query, one create call, one SQL call, one more event query.
    It never repeats the create call or the SQL call, and it makes the SQL
    call only after a create call. *)
Theorem resolve_request_order (st : state W) :
  exists d,
    trace (fst (resolve_event st)) = (trace st ++ d)%list /\
    is_prefix (map classify (sent d)) resolution_order.
Proof.
  revert st. change (within resolution_order (resolve_event (W := W))).
  unfold resolve_event, resolution_order. cbv zeta.
  repeat order_step.
Qed.

End OrderFacts.

(** * Paths through the resolution and the stages *)

Lemma nonempty_nil : nonempty (JList []) = Ok false.
Proof. reflexivity. Qed.

Lemma nonempty_null : nonempty JNull = Ok false.
Proof. reflexivity. Qed.

Lemma nonempty_cons (x : json) (l : list json) : nonempty (JList (x :: l)) = Ok true.
Proof. reflexivity. Qed.

Section PathFacts.
Context {W : Type} `{Transport W}.

Lemma bind_ok {A B : Type} (m : M W A) (k : A -> M W B) (st st' : state W) (a : A) :
  m st = (st', Ok a) -> bind m k st = k a st'.
Proof. intros E. unfold bind. now rewrite E. Qed.

Lemma bind_raise {A B : Type} (m : M W A) (k : A -> M W B) (st st' : state W) (e : exn) :
  m st = (st', Raise e) -> bind m k st = (st', Raise e).
Proof. intros E. unfold bind. now rewrite E. Qed.

Lemma lift_bind {A B : Type} (a : A) (k : A -> M W B) (st : state W) :
  bind (lift (Ok a)) k st = k a st.
Proof. reflexivity. Qed.

Lemma print_bind {B : Type} (l : line) (k : unit -> M W B) (st : state W) :
  bind (print l) k st = k tt {| world := world st; trace := trace st ++ [Printed l] |}.
Proof. reflexivity. Qed.

Lemma api_ok (m : method) (table : string) (data : option json)
    (params : list (string * string)) (st : state W) (w' : W) (r : response) :
  send (world st) (rest_request m table data params) = (w', Some r) ->
  status_code r < 400 ->
  api m table data params st =
  ({| world := w'; trace := trace st ++ [Sent (rest_request m table data params)] |},
   Ok (match parsed r with Some j => j | None => JStr (text r) end)).
Proof.
  intros Hs Hc. unfold api, bind. rewrite (http_ok _ _ _ _ Hs).
  apply Z.leb_gt in Hc. now rewrite Hc.
Qed.

Lemma api_rejected (m : method) (table : string) (data : option json)
    (params : list (string * string)) (st : state W) (w' : W) (r : response) :
  send (world st) (rest_request m table data params) = (w', Some r) ->
  400 <= status_code r ->
  api m table data params st =
  ({| world := w';
      trace := trace st ++ [Sent (rest_request m table data params);
                            Printed (ErrorLine (status_code r) (PyStr.take 200 (text r)))] |},
   Ok JNull).
Proof.
  intros Hs Hc. unfold api, bind. rewrite (http_ok _ _ _ _ Hs).
  apply Z.leb_le in Hc. rewrite Hc. unfold print, ret. cbn [world trace].
  now rewrite <- app_assoc.
Qed.

(** X10: When the event query finds an event whose [id] is falsy (0, an empty
    text, null), the script uses it all the same: it makes no create call,
    and the run stops at the fatal check. *)
Theorem falsy_existing_id_is_fatal (wb : workbook) (st : state W) (w1 : W)
    (r1 : response) (e id name : json) (rest : list json) :
  send (world st) event_query_request = (w1, Some r1) ->
  status_code r1 < 400 ->
  parsed r1 = Some (JList (e :: rest)) ->
  getitem e "id" = Ok id ->
  getitem e "name" = Ok name ->
  truthy id = false ->
  main wb st =
  ({| world := w1;
      trace := trace st ++ [Printed (Banner "EVENT"); Sent event_query_request;
                            Printed (UsingExisting name id);
                            Printed (Text "FATAL: No event ID")] |},
   Raise (SystemExit 1)).
Proof.
  intros Hs Hc Hp Hid Hname Hf.
  assert (Hres : resolve_event st =
            ({| world := w1;
                trace := trace st ++ [Printed (Banner "EVENT"); Sent event_query_request;
                                      Printed (UsingExisting name id)] |}, Ok id)).
  { unfold resolve_event, event_query. rewrite print_bind.
    erewrite bind_ok by (apply api_ok; [exact Hs | exact Hc]).
    rewrite Hp, nonempty_cons, lift_bind. cbn [first_id index0 rbind].
    rewrite Hid, lift_bind, Hname, lift_bind, print_bind.
    unfold ret. cbn [world trace]. now rewrite <- !app_assoc. }
  pose proof (main_cases wb st) as Hm. rewrite Hres, Hf in Hm. rewrite Hm.
  cbn [world trace]. now rewrite <- !app_assoc.
Qed.

(** X11: When no event exists and the standard create call succeeds, the
    resolution returns the new identifier after three calls: the event
    query, the profiles query and the create call.  The create payload is
    the fixed event data, with the creator reference appended exactly when
    the profiles query gave a truthy one. *)
Theorem resolve_creates_event (st : state W) (w1 w2 w3 : W) (r1 r2 r3 : response)
    (users more : list json) (uid row id : json) :
  send (world st) event_query_request = (w1, Some r1) ->
  status_code r1 < 400 ->
  parsed r1 = Some (JList []) ->
  send w1 profiles_request = (w2, Some r2) ->
  status_code r2 < 400 ->
  parsed r2 = Some (JList users) ->
  match users with
  | [] => uid = JNull
  | u :: _ => getitem u "id" = Ok uid
  end ->
  let data := if truthy uid then (event_data ++ [("created_by", uid)])%list
              else event_data in
  send w2 (create_request data) = (w3, Some r3) ->
  status_code r3 < 400 ->
  parsed r3 = Some (JList (row :: more)) ->
  getitem row "id" = Ok id ->
  truthy id = true ->
  resolve_event st =
  ({| world := w3;
      trace := trace st ++ [Printed (Banner "EVENT"); Sent event_query_request;
                            Sent profiles_request; Sent (create_request data);
                            Printed (CreatedEvent id)] |},
   Ok id).
Proof.
  intros Hs1 Hc1 Hp1 Hs2 Hc2 Hp2 Hu data Hs3 Hc3 Hp3 Hid Ht.
  unfold resolve_event, event_query. rewrite print_bind.
  erewrite bind_ok by (apply api_ok; [exact Hs1 | exact Hc1]).
  rewrite Hp1, nonempty_nil, lift_bind.
  erewrite bind_ok by (apply api_ok; [exact Hs2 | exact Hc2]).
  rewrite Hp2.
  assert (Huser : nonempty (JList users) =
                  Ok (match users with [] => false | _ => true end))
    by (destruct users; reflexivity).
  rewrite Huser, lift_bind.
  assert (Hfirst : (if match users with [] => false | _ => true end
                    then first_id (JList users) else Ok JNull) = Ok uid)
    by (destruct users; [now subst uid | exact Hu]).
  rewrite Hfirst, lift_bind. cbv zeta.
  change (if truthy uid then dict_set "created_by" uid event_data else event_data)
    with data.
  erewrite bind_ok by (apply api_ok; [exact Hs3 | exact Hc3]).
  rewrite Hp3, nonempty_cons, lift_bind. cbn [first_id index0 rbind].
  rewrite Hid, lift_bind, print_bind, Ht. cbn [negb].
  unfold ret. cbn [world trace]. now rewrite <- !app_assoc.
Qed.

(** X12: When no event exists, no creator reference is found and the create
    call is rejected, the script sends the SQL statement; when the answer
    holds a truthy identifier, that identifier is the result and no
    further query is made. *)
Theorem sql_fallback_resolves (st : state W) (w1 w2 w3 w4 : W)
    (r1 r2 r3 r4 : response) :
  send (world st) event_query_request = (w1, Some r1) ->
  status_code r1 < 400 ->
  parsed r1 = Some (JList []) ->
  send w1 profiles_request = (w2, Some r2) ->
  status_code r2 < 400 ->
  parsed r2 = Some (JList []) ->
  send w2 (create_request event_data) = (w3, Some r3) ->
  400 <= status_code r3 ->
  send w3 sql_request = (w4, Some r4) ->
  truthy (sql_result r4 JNull) = true ->
  resolve_event st =
  ({| world := w4;
      trace := trace st ++
        [Printed (Banner "EVENT"); Sent event_query_request; Sent profiles_request;
         Sent (create_request event_data);
         Printed (ErrorLine (status_code r3) (PyStr.take 200 (text r3)));
         Printed (CreatedEvent JNull); Printed (Text "  Trying with SQL...");
         Sent sql_request; Printed (SqlResult (PyStr.take 200 (text r4)))] |},
   Ok (sql_result r4 JNull)).
Proof.
  intros Hs1 Hc1 Hp1 Hs2 Hc2 Hp2 Hs3 Hc3 Hs4 Ht.
  unfold resolve_event, event_query. rewrite print_bind.
  erewrite bind_ok by (apply api_ok; [exact Hs1 | exact Hc1]).
  rewrite Hp1, nonempty_nil, lift_bind.
  erewrite bind_ok by (apply api_ok; [exact Hs2 | exact Hc2]).
  rewrite Hp2, nonempty_nil, !lift_bind. cbv zeta. cbn [truthy].
  erewrite bind_ok by (apply api_rejected; [exact Hs3 | exact Hc3]).
  rewrite nonempty_null, !lift_bind, print_bind. cbn [truthy negb].
  rewrite print_bind.
  erewrite bind_ok by (apply http_ok; exact Hs4).
  rewrite print_bind, Ht. cbn [negb]. unfold ret. cbn [world trace].
  now rewrite <- !app_assoc.
Qed.

(** X14: Without the roster sheet the run, once the event is resolved, raises
    [KeyError] before any write to a child table. *)
Theorem missing_roster_sheet (wb : workbook) (st st1 : state W) (event_id : json) :
  resolve_event st = (st1, Ok event_id) ->
  truthy event_id = true ->
  wb "Roster & Tables" = None ->
  main wb st =
  ({| world := world st1; trace := trace st1 ++ [Printed (Banner "ROSTER")] |},
   Raise KeyError).
Proof.
  intros Hres Ht Hws. pose proof (main_cases wb st) as Hm.
  rewrite Hres, Ht in Hm. rewrite Hm.
  unfold seed_children, wb_sheet. rewrite print_bind, Hws. reflexivity.
Qed.

(** X15: Without the inventory sheet, on a backend that answers every call
    and with roster and lender records that hold no nan and no infinity,
    the run raises [KeyError] after the roster and the lenders have been
    written: nothing is rolled back. *)
Theorem missing_inventory_sheet (wb : workbook) (w : W) (st1 : state W)
    (event_id : json) (ws : sheet) (roster lenders : list json) :
  responsive ->
  resolve_event (start w) = (st1, Ok event_id) ->
  truthy event_id = true ->
  wb "Roster & Tables" = Some ws ->
  wb "INVENTORY" = None ->
  collect (range 2 18) (roster_row ws event_id) = Ok roster ->
  collect (range 2 20) (lender_row ws event_id) = Ok lenders ->
  json_finite event_id = true ->
  forallb json_finite lenders = true ->
  snd (main wb (start w)) = Raise KeyError /\
  child_writes (trace (fst (main wb (start w)))) =
    (write_request "roster" (JList roster) :: optional_write "lenders" lenders).
Proof.
  intros Hr Hres Ht Hws Hinv Cr Cl Fe Fl.
  pose proof (main_cases wb (start w)) as Hm. rewrite Hres, Ht in Hm.
  destruct (resolve_event_sends (start w)) as (d1 & Hd1 & Hq). rewrite Hres in Hd1.
  cbn [fst start trace app] in Hd1.
  assert (Hroster : forall st, issues (seed_roster ws event_id) st
                                 [write_request "roster" (JList roster)]).
  { intros st. unfold seed_roster. eapply issues_lift; [exact Cr|].
    apply (issues_seq _ _ _ [_] []); [|intros; apply issues_print].
    apply issues_post; [exact Hr|]. exact (roster_finite ws event_id roster Fe Cr). }
  assert (Hlenders : forall st, issues (seed_lenders ws event_id) st
                                  (optional_write "lenders" lenders)).
  { intros st. unfold seed_lenders. apply issues_banner. intros st'.
    eapply issues_lift; [exact Cl|]. now apply issues_optional. }
  rewrite Hm. unfold seed_children, wb_sheet. rewrite print_bind, Hws, lift_bind.
  destruct (Hroster {| world := world st1; trace := trace st1 ++ [Printed (Banner "ROSTER")] |})
    as (st2 & d2 & E2 & Hd2 & Hs2).
  rewrite (bind_ok _ _ _ _ _ E2).
  destruct (Hlenders st2) as (st3 & d3 & E3 & Hd3 & Hs3).
  rewrite (bind_ok _ _ _ _ _ E3).
  assert (Hstop : seed_inventory wb event_id st3 =
            ({| world := world st3; trace := trace st3 ++ [Printed (Banner "INVENTORY")] |},
             Raise KeyError))
    by (unfold seed_inventory, wb_sheet; rewrite print_bind, Hinv; reflexivity).
  rewrite (bind_raise _ _ _ _ _ Hstop). cbn [fst snd trace].
  split; [reflexivity|].
  rewrite Hd3, Hd2. cbn [trace]. rewrite Hd1, !child_writes_app.
  rewrite (child_writes_none d1) by assumption.
  unfold child_writes at 1 2 3 4. rewrite Hs2, Hs3. cbn [sent flat_map filter app].
  rewrite app_nil_r.
  assert (Hchild : is_child_write (write_request "roster" (JList roster)) = true)
    by reflexivity.
  rewrite Hchild. cbn [app]. f_equal.
  apply filter_all, optional_write_child. simpl. tauto.
Qed.

(** X16: The roster stage reports the number of records it tried to write,
    also when the backend rejected the write: the count line follows the
    error line. *)
Theorem roster_reports_attempted (ws : sheet) (event_id : json) (st : state W)
    (roster : list json) (w' : W) (resp : response) :
  collect (range 2 18) (roster_row ws event_id) = Ok roster ->
  send (world st) (write_request "roster" (JList roster)) = (w', Some resp) ->
  seed_roster ws event_id st =
  ({| world := w';
      trace := trace st ++
        Sent (write_request "roster" (JList roster)) ::
        (if 400 <=? status_code resp
         then [Printed (ErrorLine (status_code resp) (PyStr.take 200 (text resp)))]
         else []) ++
        [Printed (Inserted (List.length roster) "roster entries")] |},
   Ok tt).
Proof.
  intros Cr Hs. unfold seed_roster. rewrite Cr, lift_bind. unfold post.
  destruct (Z.leb_spec 400 (status_code resp)) as [Hc|Hc].
  - erewrite bind_ok;
      [|erewrite bind_ok by (apply api_rejected; [exact Hs | exact Hc]); reflexivity].
    unfold print. cbn [world trace]. now rewrite <- !app_assoc.
  - erewrite bind_ok;
      [|erewrite bind_ok by (apply api_ok; [exact Hs | exact Hc]); reflexivity].
    unfold print. cbn [world trace]. now rewrite <- !app_assoc.
Qed.

(** X17: On a backend that answers every call, whatever the status codes,
    and for records that hold no nan and no infinity, the batch loop
    returns normally after one write per chunk: the payloads, put end to
    end, are the records in their order, there are ceil(N/20) of them,
    and none has more than 20 records. *)
Theorem batches_cover_records (table : string) (data : list json) (st : state W) :
  responsive ->
  forallb json_finite data = true ->
  exists st' d,
    post_batches table data st = (st', Ok tt) /\
    trace st' = (trace st ++ d)%list /\
    sent d = batch_writes table data /\
    List.concat (map (fun r => records_of (req_json r)) (sent d)) = data /\
    List.length (sent d) = ((List.length data + 19) / 20)%nat /\
    Forall (fun r => (List.length (records_of (req_json r)) <= 20)%nat) (sent d).
Proof.
  intros Hr Hf. destruct (post_batches_run table data st Hr Hf) as (st' & E & d & Hd & Hs).
  destruct (chunks_spec data) as (Hcat & Hlen & Hmax).
  exists st', d. repeat (split; [assumption|]).
  fold (batch_writes table data) in Hs. rewrite Hs. unfold batch_writes.
  rewrite map_map, length_map. cbn [write_request rest_request req_json records_of].
  rewrite map_id. repeat split; [assumption | assumption|].
  apply Forall_map. exact Hmax.
Qed.

(** X18: A write whose payload holds a nan or an infinity never goes out: the
    call raises [InvalidJSONError] inside [requests], so the client
    neither prints an error line nor returns its failure value, and the
    exception ends the run.  No request is sent and the backend is left
    as it was.  On the workbook whose lender rate cell reads [nan], the
    run stops at the lenders write, after the roster write. *)
Theorem unserialisable_write_raises (m : method) (table : string) (data : json)
    (params : list (string * string)) (st : state W) :
  json_finite data = false ->
  api m table (Some data) params st = (st, Raise InvalidJSONError) /\
  post table data st = (st, Raise InvalidJSONError) /\
  (let run := main nan_rate_book (start ([] : list json)) in
   snd run = Raise InvalidJSONError /\
   map req_url (child_writes (trace (fst run))) = [rest_url "roster"]).
Proof.
  intros Hf.
  assert (Hapi : forall m' params',
            api m' table (Some data) params' st = (st, Raise InvalidJSONError)).
  { intros m' params'. unfold api. apply bind_raise, http_unsent. exact Hf. }
  split; [apply Hapi|]. split.
  - unfold post. apply bind_raise, Hapi.
  - vm_compute. split; reflexivity.
Qed.

End PathFacts.

(** * Witnesses of the further properties *)

Lemma store_responsive : responsive (W := list json).
Proof.
  intros rows r. unfold transmit, store_transport, store_send.
  destruct (String.eqb _ _); [destruct (req_method r)|]; eexists _, _; reflexivity.
Qed.

Lemma lender_row_spec_witness :
  lender_row sample_roster (JInt 1) 2 =
  Ok (Some (JDict [ ("event_id", JInt 1); ("name", JStr "Ally");
                    ("buy_rate_pct", of_float (Some 5.5%float)) ])).
Proof.
  assert (HI : s (value sample_roster "I" 2) = Ok (Some "Ally")) by reflexivity.
  assert (HK : n (value sample_roster "K" 2) = Ok (Some 5.5%float))
    by (vm_compute; reflexivity).
  destruct (lender_row_spec sample_roster (JInt 1) 2 _ _ HI HK) as [_ Hkept].
  apply (Hkept "Ally"); [reflexivity | discriminate].
Defined.

Lemma deal_row_spec_witness :
  exists item, deal_row sample_deals (JInt 1) 9 = Ok (Some (JDict item)) /\
    List.length item = 29%nat /\
    dict_get "customer_name" item = Some (of_str (Some "A. Buyer")) /\
    dict_get "stock_number" item = Some (of_str None) /\
    dict_get "sale_day" item = Some (JInt 1) /\
    dict_get "source" item = Some (JStr "Mail").
Proof.
  assert (HI : s (value sample_deals "I" 9) = Ok (Some "A. Buyer")) by reflexivity.
  assert (HH : s (value sample_deals "H" 9) = Ok None) by reflexivity.
  destruct (deal_row_spec sample_deals (JInt 1) 9 _ _ HI HH) as [_ Hkept].
  apply Hkept. left. reflexivity.
Defined.

Lemma mail_row_spec_witness :
  exists item, mail_row sample_mail (JInt 1) 2 = Ok (Some (JDict item)) /\
    dict_get "zip_code" item = Some (of_str (Some "62656")) /\
    dict_get "town" item = Some (of_str (Some "Lincoln")) /\
    dict_get "campaign_name" item = Some (JStr "WIN BIG") /\
    forall k, In k count_keys -> exists z, dict_get k item = Some (JInt z).
Proof.
  assert (HE : s (value sample_mail "E" 2) = Ok (Some "62656")) by reflexivity.
  assert (HD : s (value sample_mail "D" 2) = Ok (Some "Lincoln")) by reflexivity.
  destruct (mail_row_spec sample_mail (JInt 1) 2 _ _ HE HD) as [_ Hkept].
  apply Hkept. split; reflexivity.
Defined.

Lemma retail_spread_spec_witness :
  dict_get "retail_spread" retail_item = Some (JFloat 4000).
Proof.
  assert (Hrow : inventory_row retail_inventory (JInt 1) 2 = Ok (Some (JDict retail_item)))
    by (vm_compute; reflexivity).
  assert (HP : n (value retail_inventory "P" 2) = Ok (Some 12000%float))
    by (vm_compute; reflexivity).
  assert (HQ : n (value retail_inventory "Q" 2) = Ok (Some 8000%float))
    by (vm_compute; reflexivity).
  etransitivity;
    [exact (retail_spread_spec retail_inventory (JInt 1) 2 _ _ _ Hrow HP HQ)|].
  vm_compute. reflexivity.
Defined.

Lemma inventory_row_base_witness :
  exists item, inventory_row sample_inventory (JInt 1) 2 = Ok (Some (JDict item)) /\
    dict_get "hat_number" item = Some (of_int (Some 7)) /\
    dict_get "model" item = Some (of_str (Some "Ram 1500")) /\
    dict_get "jd_trade_clean" item = Some (of_float (Some 10000%float)) /\
    dict_get "jd_retail_clean" item = Some (of_float None) /\
    dict_get "unit_cost" item = Some (of_float (Some 8000%float)).
Proof.
  assert (HA : i (value sample_inventory "A" 2) = Ok (Some 7)) by (vm_compute; reflexivity).
  assert (HG : s (value sample_inventory "G" 2) = Ok (Some "Ram 1500")) by reflexivity.
  assert (HO : n (value sample_inventory "O" 2) = Ok (Some 10000%float))
    by (vm_compute; reflexivity).
  assert (HP : n (value sample_inventory "P" 2) = Ok None) by reflexivity.
  assert (HQ : n (value sample_inventory "Q" 2) = Ok (Some 8000%float))
    by (vm_compute; reflexivity).
  destruct (inventory_row_base sample_inventory (JInt 1) 2 _ _ _ _ _ HA HG HO HP HQ)
    as [_ Hkept].
  apply Hkept. left. reflexivity.
Defined.

Lemma complete_run_witness :
  snd (main sample_book (start ([] : list json))) = Ok tt /\
  last (trace (fst (main sample_book (start ([] : list json))))) (Printed (Text "")) =
    Printed Complete /\
  map req_url (child_writes (trace (fst (main sample_book (start ([] : list json)))))) =
  map rest_url ["roster"; "lenders"; "vehicle_inventory"; "deals_v2"; "mail_tracking";
                "event_config"].
Proof.
  assert (Hres : resolve_event (start ([] : list json)) =
                 (fst (resolve_event (start ([] : list json))), Ok (JInt 1)))
    by (vm_compute; reflexivity).
  edestruct (fun roster lenders inventory deals mail =>
               complete_run sample_book ([] : list json) _ (JInt 1)
                 sample_roster sample_inventory sample_deals sample_mail
                 roster lenders inventory deals mail store_responsive Hres)
    as (Hok & Hplan & tr & Hend);
    try (vm_compute; reflexivity).
  split; [exact Hok|]. split; [vm_compute; reflexivity|].
  rewrite Hplan. vm_compute. reflexivity.
Defined.

Lemma falsy_existing_id_is_fatal_witness :
  snd (main sample_book (start zero_id_script)) = Raise (SystemExit 1) /\
  sent (trace (fst (main sample_book (start zero_id_script)))) = [event_query_request].
Proof.
  assert (Hs : send (world (start zero_id_script)) event_query_request =
               ([], Some (answer 200 (JList [JDict [("id", JInt 0); ("name", JStr "draft")]]))))
    by reflexivity.
  rewrite (falsy_existing_id_is_fatal sample_book (start zero_id_script) _ _
             (JDict [("id", JInt 0); ("name", JStr "draft")]) (JInt 0) (JStr "draft") []
             Hs ltac:(reflexivity) eq_refl eq_refl eq_refl eq_refl).
  split; reflexivity.
Defined.

Lemma resolve_creates_event_witness :
  snd (resolve_event (start create_script)) = Ok (JStr "evt-9") /\
  sent (trace (fst (resolve_event (start create_script)))) =
  [ event_query_request; profiles_request;
    create_request (event_data ++ [("created_by", JStr "user-1")])%list ].
Proof.
  assert (Hs1 : send (world (start create_script)) event_query_request =
                (tl create_script, Some (answer 200 (JList [])))) by reflexivity.
  assert (Hs2 : send (tl create_script) profiles_request =
                (tl (tl create_script),
                 Some (answer 200 (JList [JDict [("id", JStr "user-1")]])))) by reflexivity.
  assert (Hs3 : send (tl (tl create_script))
                  (create_request (event_data ++ [("created_by", JStr "user-1")])%list) =
                ([], Some (answer 201 (JList [JDict [("id", JStr "evt-9")]]))))
    by reflexivity.
  rewrite (resolve_creates_event (start create_script) _ _ _ _ _ _
             [JDict [("id", JStr "user-1")]] [] (JStr "user-1")
             (JDict [("id", JStr "evt-9")]) (JStr "evt-9")
             Hs1 ltac:(reflexivity) eq_refl Hs2 ltac:(reflexivity) eq_refl eq_refl
             Hs3 ltac:(reflexivity) eq_refl eq_refl eq_refl).
  split; reflexivity.
Defined.

Lemma sql_fallback_resolves_witness :
  snd (resolve_event (start fallback_script)) = Ok (JStr "evt-7") /\
  map classify (sent (trace (fst (resolve_event (start fallback_script))))) =
  [QueryEvents; QueryProfiles; CreateEvent; SqlInsert].
Proof.
  assert (Hs1 : send (world (start fallback_script)) event_query_request =
                (tl fallback_script, Some (answer 200 (JList [])))) by reflexivity.
  assert (Hs2 : send (tl fallback_script) profiles_request =
                (tl (tl fallback_script), Some (answer 200 (JList [])))) by reflexivity.
  assert (Hs3 : send (tl (tl fallback_script)) (create_request event_data) =
                (tl (tl (tl fallback_script)),
                 Some {| status_code := 400; text := "null value in column created_by";
                         parsed := None |})) by reflexivity.
  assert (Hs4 : send (tl (tl (tl fallback_script))) sql_request =
                ([], Some (answer 201 (JList [JList [JDict [("id", JStr "evt-7")]]]))))
    by reflexivity.
  rewrite (sql_fallback_resolves (start fallback_script) _ _ _ _ _ _ _ _
             Hs1 ltac:(reflexivity) eq_refl Hs2 ltac:(reflexivity) eq_refl
             Hs3 ltac:(vm_compute; discriminate) Hs4 eq_refl).
  split; reflexivity.
Defined.

Lemma missing_roster_sheet_witness :
  snd (main (book []) (start ([] : list json))) = Raise KeyError /\
  child_writes (trace (fst (main (book []) (start ([] : list json))))) = [].
Proof.
  assert (Hres : resolve_event (start ([] : list json)) =
                 (fst (resolve_event (start ([] : list json))), Ok (JInt 1)))
    by (vm_compute; reflexivity).
  rewrite (missing_roster_sheet (book []) (start ([] : list json)) _ (JInt 1) Hres);
    try reflexivity.
  split; [reflexivity | vm_compute; reflexivity].
Defined.

Lemma missing_inventory_sheet_witness :
  snd (main roster_only_book (start ([] : list json))) = Raise KeyError /\
  map req_url (child_writes (trace (fst (main roster_only_book (start ([] : list json)))))) =
  map rest_url ["roster"; "lenders"].
Proof.
  assert (Hres : resolve_event (start ([] : list json)) =
                 (fst (resolve_event (start ([] : list json))), Ok (JInt 1)))
    by (vm_compute; reflexivity).
  edestruct (fun roster lenders =>
               missing_inventory_sheet roster_only_book ([] : list json) _ (JInt 1)
                 sample_roster roster lenders store_responsive Hres)
    as (Hraise & Hwrites); try (vm_compute; reflexivity).
  split; [exact Hraise|]. rewrite Hwrites. vm_compute. reflexivity.
Defined.

Lemma roster_reports_attempted_witness :
  seed_roster sample_roster (JInt 1) (start tt) =
  ({| world := tt;
      trace := [ Sent (write_request "roster"
                         (JList [JDict [ ("event_id", JInt 1); ("name", JStr "Jane Doe");
                                         ("phone", JStr "555-1212"); ("role", JStr "sales");
                                         ("confirmed", JBool true);
                                         ("commission_pct", JFloat 0.25) ]]));
                 Printed (ErrorLine 500 "unavailable");
                 Printed (Inserted 1 "roster entries") ] |},
   Ok tt).
Proof.
  assert (Cr : collect (range 2 18) (roster_row sample_roster (JInt 1)) =
               Ok [JDict [ ("event_id", JInt 1); ("name", JStr "Jane Doe");
                           ("phone", JStr "555-1212"); ("role", JStr "sales");
                           ("confirmed", JBool true); ("commission_pct", JFloat 0.25) ]])
    by (vm_compute; reflexivity).
  rewrite (roster_reports_attempted sample_roster (JInt 1) (start tt) _ tt unavailable Cr eq_refl).
  reflexivity.
Defined.

Lemma batches_cover_records_witness :
  exists st' d,
    post_batches "vehicle_inventory" (repeat JNull 45) (start ([] : list json)) = (st', Ok tt) /\
    trace st' = d /\
    map (fun r => List.length (records_of (req_json r))) (sent d) = [20; 20; 5]%nat.
Proof.
  destruct (batches_cover_records "vehicle_inventory" (repeat JNull 45)
              (start ([] : list json)) store_responsive eq_refl)
    as (st' & d & E & Hd & Hs & _).
  exists st', d. split; [exact E|]. split; [exact Hd|].
  rewrite Hs. vm_compute. reflexivity.
Defined.

Lemma unserialisable_write_raises_witness :
  collect (range 2 20) (lender_row nan_rate_roster (JInt 1)) =
    Ok [JDict [("event_id", JInt 1); ("name", JStr "Ally"); ("buy_rate_pct", JFloat nan)]] /\
  post "lenders"
    (JList [JDict [("event_id", JInt 1); ("name", JStr "Ally"); ("buy_rate_pct", JFloat nan)]])
    (start ([] : list json)) = (start [], Raise InvalidJSONError).
Proof.
  split; [vm_compute; reflexivity|].
  apply (unserialisable_write_raises POST "lenders"
           (JList [JDict [("event_id", JInt 1); ("name", JStr "Ally");
                          ("buy_rate_pct", JFloat nan)]])
           [] (start ([] : list json)) eq_refl).
Defined.
